(** * The incremental diagnostics feed of diagterm

    A shallow embedding of [DiagnosticsFeed] from
    [docs/src/diagterm/collectors.py]: the rolling buffer, the journal
    cursor, the dmesg tail diff and the backend selection of [poll].

    Conventions.
    - A Python [str] is a [string]; an [ascii] stands for a code point
      below 256 (the separators U+2028 and U+2029 are outside the model).
    - [str | None] is [option string]; Python truthiness of such a value
      is written out where the source tests it.
    - [subprocess.check_output] is a function of the argument vector: it
      gives [Some out] for the captured text and [None] for any raised
      exception (non-zero exit, timeout, missing executable).  Every
      method also returns the argument vectors it has run, in order. *)

From Stdlib Require Import List String Ascii Bool Arith ZArith Lia.
From Stdlib Require Import DecimalString.
From Stdlib Require DecimalPos DecimalZ.
Import ListNotations.
Open Scope string_scope.
Open Scope list_scope.
Open Scope nat_scope.

(** ** Python string primitives *)

Module PyStr.

Definition code (c : ascii) : nat := nat_of_ascii c.

(** [str.isspace] on one character. *)
Definition isspace (c : ascii) : bool :=
  let n := code c in
  ((9 <=? n) && (n <=? 13)) || ((28 <=? n) && (n <=? 32))
  || (n =? 133) || (n =? 160).

(** The line boundaries of [str.splitlines]. *)
Definition is_linebreak (c : ascii) : bool :=
  let n := code c in
  ((10 <=? n) && (n <=? 13)) || ((28 <=? n) && (n <=? 30)) || (n =? 133).

Definition LF : ascii := "010"%char.
Definition CR : ascii := "013"%char.

Definition is_empty (s : string) : bool :=
  match s with EmptyString => true | String _ _ => false end.

(** [str.splitlines()]: [cur] is the line being read.  A carriage return
    followed by a line feed is one boundary; no empty last line is
    produced after a final boundary. *)
Fixpoint splitlines_from (cur s : string) : list string :=
  match s with
  | EmptyString => if is_empty cur then [] else [cur]
  | String c rest =>
      if is_linebreak c then
        cur ::
          match rest with
          | String c2 rest' =>
              if Ascii.eqb c CR && Ascii.eqb c2 LF
              then splitlines_from "" rest'
              else splitlines_from "" rest
          | EmptyString => splitlines_from "" rest
          end
      else splitlines_from (cur ++ String c "")%string rest
  end.

Definition splitlines (s : string) : list string := splitlines_from "" s.

(** [str.rstrip()], [str.lstrip()], [str.strip()] with no argument. *)
Fixpoint rstrip (s : string) : string :=
  match s with
  | EmptyString => ""
  | String c r =>
      let r' := rstrip r in
      if is_empty r' && isspace c then "" else String c r'
  end.

Fixpoint lstrip (s : string) : string :=
  match s with
  | EmptyString => ""
  | String c r => if isspace c then lstrip r else s
  end.

Definition strip (s : string) : string := rstrip (lstrip s).

(** [s.startswith(p)]. *)
Definition startswith (s p : string) : bool := String.prefix p s.

(** [s.split(sep, 1)] for a one-character separator. *)
Fixpoint split1 (sep : ascii) (s : string) : list string :=
  match s with
  | EmptyString => [""]
  | String c r =>
      if Ascii.eqb c sep then [""; r]
      else match split1 sep r with
           | h :: t => String c h :: t
           | [] => [String c ""]
           end
  end.

(** [str(n)] for a natural number. *)
Definition str_of_nat (n : nat) : string :=
  NilZero.string_of_uint (Nat.to_uint n).

(** [s == o] where [o] may be [None]: a string never equals [None]. *)
Definition eq_opt (s : string) (o : option string) : bool :=
  match o with
  | Some m => String.eqb s m
  | None => false
  end.

(** Truthiness of a [str | None]. *)
Definition truthy (o : option string) : bool :=
  match o with
  | Some s => negb (is_empty s)
  | None => false
  end.

(** [o is not None]. *)
Definition is_not_none (o : option string) : bool :=
  match o with Some _ => true | None => false end.

(** Each line followed by a line feed: the text a tool prints. *)
Fixpoint unlines (ls : list string) : string :=
  match ls with
  | [] => ""
  | l :: r => (l ++ String LF (unlines r))%string
  end.

Fixpoint no_linebreak (s : string) : bool :=
  match s with
  | EmptyString => true
  | String c r => negb (is_linebreak c) && no_linebreak r
  end.

End PyStr.

(** ** Python list primitives *)

Module PyList.

(** [l[-n:]] for [n >= 0]; Python reads [l[-0:]] as the whole list. *)
Definition last_n {A} (n : nat) (l : list A) : list A :=
  if n =? 0 then l else skipn (List.length l - n) l.

(** [l[-1] if l else None]. *)
Fixpoint last_opt {A} (l : list A) : option A :=
  match l with
  | [] => None
  | [x] => Some x
  | _ :: r => last_opt r
  end.

(** The backward scan
    [for i in range(len(l) - 1, -1, -1): if l[i] == last: ...; break]
    started below index [k]. *)
Fixpoint scan_back (l : list string) (last : option string) (k : nat)
  : option nat :=
  match k with
  | 0 => None
  | S i =>
      if PyStr.eq_opt (nth i l "") last then Some i
      else scan_back l last i
  end.

Definition rindex (l : list string) (last : option string) : option nat :=
  scan_back l last (List.length l).

End PyList.

(** ** [collections.deque] with [maxlen] *)

Module Deque.

(** [d.append(x)]: the element goes to the right end, and when the
    length then exceeds [maxlen] the leftmost element is dropped. *)
Definition append (maxlen : nat) (d : list string) (x : string)
  : list string :=
  let d' := d ++ [x] in
  if maxlen <? List.length d' then tl d' else d'.

(** [for x in xs: d.append(x)]. *)
Definition extend (maxlen : nat) (d xs : list string) : list string :=
  fold_left (append maxlen) xs d.

End Deque.

(** ** The feed object *)

Inductive Backend : Type :=
| journal   (* "journal" *)
| dmesg.    (* "dmesg" *)

(** The attributes of a [DiagnosticsFeed] instance. *)
Record Feed : Type := mkFeed {
  limit : nat;
  _buffer : list string;              (* deque(maxlen=limit) *)
  _backend : option Backend;
  _journalctl : option string;        (* _which("journalctl") *)
  _dmesg : option string;             (* _which("dmesg") *)
  _cursor : option string;
  _journal_tail : option string;
  _dmesg_tail : option string
}.

Definition set_buffer (b : list string) (s : Feed) : Feed :=
  mkFeed (limit s) b (_backend s) (_journalctl s) (_dmesg s)
         (_cursor s) (_journal_tail s) (_dmesg_tail s).

Definition set_backend (b : option Backend) (s : Feed) : Feed :=
  mkFeed (limit s) (_buffer s) b (_journalctl s) (_dmesg s)
         (_cursor s) (_journal_tail s) (_dmesg_tail s).

Definition set_cursor (c : option string) (s : Feed) : Feed :=
  mkFeed (limit s) (_buffer s) (_backend s) (_journalctl s) (_dmesg s)
         c (_journal_tail s) (_dmesg_tail s).

Definition set_journal_tail (t : option string) (s : Feed) : Feed :=
  mkFeed (limit s) (_buffer s) (_backend s) (_journalctl s) (_dmesg s)
         (_cursor s) t (_dmesg_tail s).

Definition set_dmesg_tail (t : option string) (s : Feed) : Feed :=
  mkFeed (limit s) (_buffer s) (_backend s) (_journalctl s) (_dmesg s)
         (_cursor s) (_journal_tail s) t.

(** [DiagnosticsFeed.__init__]: [which_journalctl] and [which_dmesg] are
    the results of the two [_which] look-ups. *)
Definition __init__ (lim : Z) (which_journalctl which_dmesg : option string)
  : Feed :=
  mkFeed (Z.to_nat (Z.max 1 lim)) [] None which_journalctl which_dmesg
         None None None.

(** [DiagnosticsFeed.snapshot]. *)
Definition snapshot (s : Feed) : list string := _buffer s.

(** ** External commands *)

Definition Argv : Type := list string.

(** One [subprocess.check_output] call: the captured text, or [None] when
    the call raises. *)
Definition World : Type := Argv -> option string.

(** What a method hands back: the returned pair, the feed after the call
    and the commands run during it. *)
Record Outcome : Type := mkOutcome {
  lines : list string;
  reset : bool;
  feed : Feed;
  calls : list Argv
}.

(** [for argv in candidates: try: out = check_output(argv); break
     except Exception: continue]. *)
Fixpoint first_success (run : World) (candidates : list Argv)
  : option string * list Argv :=
  match candidates with
  | [] => (None, [])
  | argv :: rest =>
      match run argv with
      | Some out => (Some out, [argv])
      | None =>
          let (r, tried) := first_success run rest in (r, argv :: tried)
      end
  end.

(** ** Journal output parsing *)

Definition cursor_prefix : string := "-- cursor:".
Definition no_entries : string := "-- No entries --".

(** The loop of [_extract_cursor] over the reversed lines.  The index [1]
    of the split exists whenever the prefix test passed. *)
Fixpoint extract_cursor_scan (rev_lines : list string) : option string :=
  match rev_lines with
  | [] => None
  | ln :: rest =>
      if PyStr.startswith ln cursor_prefix then
        match nth_error (PyStr.split1 ":" ln) 1 with
        | Some after =>
            let v := PyStr.strip after in
            if PyStr.is_empty v then None else Some v
        | None => None
        end
      else extract_cursor_scan rest
  end.

Definition _extract_cursor (raw_lines : list string) : option string :=
  extract_cursor_scan (rev raw_lines).

Fixpoint _filter_journal_lines (raw_lines : list string) : list string :=
  match raw_lines with
  | [] => []
  | ln0 :: rest =>
      let ln := PyStr.rstrip ln0 in
      if PyStr.is_empty ln then _filter_journal_lines rest
      else if String.eqb ln no_entries then _filter_journal_lines rest
      else if PyStr.startswith ln cursor_prefix
           then _filter_journal_lines rest
      else ln :: _filter_journal_lines rest
  end.

(** [[ln.rstrip() for ln in out.splitlines() if ln.strip()]]. *)
Definition dmesg_lines (out : string) : list string :=
  map PyStr.rstrip
      (filter (fun ln => negb (PyStr.is_empty (PyStr.strip ln)))
              (PyStr.splitlines out)).

(** ** The two backends *)

(** [self._buffer.clear(); for ln in ls[-self.limit:]: self._buffer.append(ln)]. *)
Definition refill (ls : list string) (s : Feed) : Feed :=
  set_buffer (Deque.extend (limit s) [] (PyList.last_n (limit s) ls)) s.

(** [for ln in new_lines: self._buffer.append(ln)]. *)
Definition append_all (new_lines : list string) (s : Feed) : Feed :=
  set_buffer (Deque.extend (limit s) (_buffer s) new_lines) s.

Definition dmesg_candidates (tool : string) : list Argv :=
  [ [tool; "--color=never"; "--level=err,warn"; "--ctime"];
    [tool; "--color=never"; "--level=err,warn"];
    [tool; "--level=err,warn"; "--ctime"];
    [tool; "--level=err,warn"];
    [tool; "--ctime"];
    [tool] ].

(** The full-state branch of [_poll_dmesg], shared by the forced reset and
    the lost-sync case. *)
Definition dmesg_reset (all_lines : list string) (s : Feed) : Feed :=
  let tail := PyList.last_n (limit s) all_lines in
  set_dmesg_tail (PyList.last_opt tail) (refill all_lines s).

Definition _poll_dmesg (run : World) (s : Feed) (force_reset : bool)
  : Outcome :=
  match _dmesg s with
  | None =>
      mkOutcome [] true (set_dmesg_tail None (set_buffer [] s)) []
  | Some tool =>
      let (out, tried) := first_success run (dmesg_candidates tool) in
      match out with
      | None =>
          mkOutcome [] true (set_dmesg_tail None (set_buffer [] s)) tried
      | Some text =>
          let all_lines := dmesg_lines text in
          if force_reset || negb (PyStr.is_not_none (_dmesg_tail s)) then
            let s1 := dmesg_reset all_lines s in
            mkOutcome (snapshot s1) true s1 tried
          else
            match PyList.rindex all_lines (_dmesg_tail s) with
            | None =>
                let s1 := dmesg_reset all_lines s in
                mkOutcome (snapshot s1) true s1 tried
            | Some last_idx =>
                let new_lines := skipn (S last_idx) all_lines in
                let s1 := append_all new_lines s in
                let s2 := set_dmesg_tail (PyList.last_opt (_buffer s1)) s1 in
                mkOutcome new_lines false s2 tried
            end
      end
  end.

(** The command line of [_poll_journalctl] and the [reset_required] flag
    computed with it. *)
Definition journal_argv (s : Feed) : Argv :=
  let tool :=
    if PyStr.truthy (_journalctl s)
    then match _journalctl s with Some p => p | None => "" end
    else "journalctl" in
  let argv :=
    [tool; "--no-pager"; "--output"; "short-iso"; "-p"; "0..4";
     "--show-cursor"] in
  if PyStr.truthy (_cursor s)
  then argv ++ ["--after-cursor";
                match _cursor s with Some c => c | None => "" end]
  else argv ++ ["-n"; PyStr.str_of_nat (limit s)].

Definition journal_reset_required (s : Feed) : bool :=
  if PyStr.truthy (_cursor s) then false
  else List.length (_buffer s) =? 0.

(** The full-state branches of [_poll_journalctl]. *)
Definition journal_reset (ls : list string) (s : Feed) : Feed :=
  let s1 := refill ls s in
  set_journal_tail (PyList.last_opt (_buffer s1)) s1.

Definition _poll_journalctl (run : World) (s : Feed) : Outcome :=
  let argv := journal_argv s in
  let reset_required := journal_reset_required s in
  match run argv with
  | None =>
      match _dmesg s with
      | Some _ =>
          let o := _poll_dmesg run
                     (set_cursor None (set_backend (Some dmesg) s)) true in
          mkOutcome (lines o) (reset o) (feed o) (argv :: calls o)
      | None =>
          mkOutcome [] true (set_cursor None (set_buffer [] s)) [argv]
      end
  | Some out =>
      let raw_lines := PyStr.splitlines out in
      let cursor := _extract_cursor raw_lines in
      let s1 := if PyStr.truthy cursor then set_cursor cursor s else s in
      let ls := _filter_journal_lines raw_lines in
      if reset_required then
        let s2 := journal_reset ls s1 in
        mkOutcome (snapshot s2) true s2 [argv]
      else if PyStr.truthy (_cursor s1) then
        let s2 := append_all ls s1 in
        let s3 :=
          if negb (Nat.eqb (List.length ls) 0)
          then set_journal_tail (PyList.last_opt (_buffer s2)) s2
          else s2 in
        mkOutcome ls false s3 [argv]
      else if negb (PyStr.is_not_none (_journal_tail s1)) then
        let s2 := journal_reset ls s1 in
        mkOutcome (snapshot s2) true s2 [argv]
      else
        match PyList.rindex ls (_journal_tail s1) with
        | None =>
            let s2 := journal_reset ls s1 in
            mkOutcome (snapshot s2) true s2 [argv]
        | Some last_idx =>
            let new_lines := skipn (S last_idx) ls in
            let s2 := append_all new_lines s1 in
            let s3 := set_journal_tail (PyList.last_opt (_buffer s2)) s2 in
            mkOutcome new_lines false s3 [argv]
        end
  end.

(** ** The orchestrator *)

(** The first [if] of [poll]: [None] stands for its early
    [return ([], True)]. *)
Definition select_backend (s : Feed) : option Feed :=
  match _backend s with
  | Some _ => Some s
  | None =>
      match _journalctl s, _dmesg s with
      | Some _, _ => Some (set_backend (Some journal) s)
      | None, Some _ => Some (set_backend (Some dmesg) s)
      | None, None => None
      end
  end.

Definition poll (run : World) (s0 : Feed) : Outcome :=
  match select_backend s0 with
  | None => mkOutcome [] true s0 []
  | Some s =>
      match _backend s, _journalctl s, _dmesg s with
      | Some journal, Some _, _ =>
          let o := _poll_journalctl run s in
          if negb (Nat.eqb (List.length (lines o)) 0) || reset o
          then mkOutcome (lines o) (reset o) (feed o) (calls o)
          else mkOutcome [] false (feed o) (calls o)
      | Some dmesg, _, Some _ => _poll_dmesg run s false
      | _, _, _ =>
          mkOutcome [] true
            (set_dmesg_tail None
               (set_cursor None (set_backend None (set_buffer [] s))))
            []
      end
  end.

(** A run of polls, one world per poll; the outcomes in order. *)
Fixpoint poll_many (runs : list World) (s : Feed) : list Outcome :=
  match runs with
  | [] => []
  | run :: rest =>
      let o := poll run s in o :: poll_many rest (feed o)
  end.

Fixpoint feed_after (runs : list World) (s : Feed) : Feed :=
  match runs with
  | [] => s
  | run :: rest => feed_after rest (feed (poll run s))
  end.

(** The class invariant: the capacity is positive and the deque respects
    its [maxlen]. *)
Definition wf (s : Feed) : Prop :=
  1 <= limit s /\ List.length (_buffer s) <= limit s.

(** ** The one-shot diagnostics call and its route *)

(** [get_recent_diagnostics] of [docs/src/diagterm/collectors.py]: a feed
    is built, polled once and the lines cut to the last [max(1, limit)]. *)
Definition get_recent_diagnostics
  (run : World) (which_journalctl which_dmesg : option string) (lim : Z)
  : list string :=
  let o := poll run (__init__ lim which_journalctl which_dmesg) in
  PyList.last_n (Z.to_nat (Z.max 1 lim)) (lines o).

(** The ["lines"] of [api_diagnostics] in [web.py]. *)
Definition api_diagnostics
  (run : World) (which_journalctl which_dmesg : option string) (lim : Z)
  : list string :=
  get_recent_diagnostics run which_journalctl which_dmesg
    (Z.min (Z.max lim 1) 2000).

(** The stateless [get_recent_diagnostics] of
    [src/diagterm/collectors.py]. *)
Module Stateless.

Definition journal_argv (tool : string) (limit : nat) : Argv :=
  [tool; "--no-pager"; "--output"; "short-iso"; "-p"; "0..4";
   "-n"; PyStr.str_of_nat limit].

Definition dmesg_candidates (tool : string) : list Argv :=
  [ [tool; "--color=never"; "--level=err,warn"; "--ctime"];
    [tool; "--color=never"; "--level=err,warn"];
    [tool; "--ctime"];
    [tool] ].

Definition from_dmesg (run : World) (which_dmesg : option string)
  (limit : nat) : list string :=
  match which_dmesg with
  | None => []
  | Some tool =>
      match fst (first_success run (dmesg_candidates tool)) with
      | Some out => PyList.last_n limit (dmesg_lines out)
      | None => []
      end
  end.

Definition get_recent_diagnostics
  (run : World) (which_journalctl which_dmesg : option string) (lim : Z)
  : list string :=
  let limit := Z.to_nat (Z.max 1 lim) in
  match which_journalctl with
  | Some tool =>
      match run (journal_argv tool limit) with
      | Some out => PyList.last_n limit (dmesg_lines out)
      | None => from_dmesg run which_dmesg limit
      end
  | None => from_dmesg run which_dmesg limit
  end.

End Stateless.

(** ** Running services *)

Module PyText.

(** The first word of a string that starts with no blank, and what
    follows that word. *)
Fixpoint word (s : string) : string :=
  match s with
  | EmptyString => ""
  | String c r => if PyStr.isspace c then "" else String c (word r)
  end.

Fixpoint after_word (s : string) : string :=
  match s with
  | EmptyString => ""
  | String c r => if PyStr.isspace c then s else after_word r
  end.

(** [s.split(None, maxsplit)]: words separated by runs of blanks; after
    [maxsplit] words the rest, without its leading blanks, is the last
    item when it is not empty. *)
Fixpoint split_ws (maxsplit : nat) (s : string) : list string :=
  let r := PyStr.lstrip s in
  match maxsplit with
  | 0 => if PyStr.is_empty r then [] else [r]
  | S k =>
      if PyStr.is_empty r then []
      else word r :: split_ws k (after_word r)
  end.

Fixpoint has_space (s : string) : bool :=
  match s with
  | EmptyString => false
  | String c r => PyStr.isspace c || has_space r
  end.

End PyText.

Module Services.

Record ServiceRow : Type := mkServiceRow {
  name : string;
  description : string;
  active : string
}.

Definition systemctl_argv (tool : string) : Argv :=
  [tool; "--no-pager"; "--plain"; "--state=running"; "--type=service";
   "list-units"].

(** The loop over the output lines; [rows] is the list built so far.  A
    split with [maxsplit = 4] has at most five items, so the unpacking of
    five names cannot fail. *)
Fixpoint rows_loop (limit : Z) (rows : list ServiceRow)
  (out_lines : list string) : list ServiceRow :=
  match out_lines with
  | [] => rows
  | line :: rest =>
      if PyStr.is_empty line
         || PyStr.startswith line "UNIT " || PyStr.startswith line "LOAD "
      then rows_loop limit rows rest
      else
        match PyText.split_ws 4 line with
        | [unit; _load; act; _sub; desc] =>
            let rows' := rows ++ [mkServiceRow unit desc act] in
            if (limit <=? Z.of_nat (List.length rows'))%Z then rows'
            else rows_loop limit rows' rest
        | _ => rows_loop limit rows rest
        end
  end.

(** [get_running_services]; [which_systemctl] is [_which("systemctl")]. *)
Definition get_running_services
  (run : World) (which_systemctl : option string) (limit : Z)
  : list ServiceRow :=
  match which_systemctl with
  | None => []
  | Some tool =>
      match run (systemctl_argv tool) with
      | None => []
      | Some out => rows_loop limit [] (PyStr.splitlines out)
      end
  end.

(** The rows of [api_services] in [web.py]. *)
Definition api_services
  (run : World) (which_systemctl : option string) (limit : Z)
  : list ServiceRow :=
  get_running_services run which_systemctl (Z.min (Z.max limit 1) 200).

End Services.

(** ** Display formats *)

(** [str(z)] for an integer. *)
Definition str_of_Z (z : Z) : string := NilZero.string_of_int (Z.to_int z).

(** The format [{z:02d}]: zeros on the left up to two characters. *)
Definition pad2 (z : Z) : string :=
  let t := str_of_Z z in
  if String.length t <? 2 then ("0" ++ t)%string else t.

(** [format_uptime]; the argument is [int(seconds)], the float argument
    of the source cut to an integer. *)
Definition format_uptime (int_seconds : Z) : string :=
  let seconds := Z.max 0 int_seconds in
  let m := (seconds / 60)%Z in
  let s := (seconds mod 60)%Z in
  let h := (m / 60)%Z in
  let m := (m mod 60)%Z in
  let d := (h / 24)%Z in
  let h := (h mod 24)%Z in
  let clock := (pad2 h ++ ":" ++ pad2 m ++ ":" ++ pad2 s)%string in
  if (d =? 0)%Z then clock else (str_of_Z d ++ "d " ++ clock)%string.

Definition units : list string := ["B"; "KB"; "MB"; "GB"; "TB"; "PB"].

(** The loop
    [while v >= 1024.0 and i < len(units) - 1: v /= 1024.0; i += 1]
    of [format_bytes].  The float [v] is kept exactly, as the quotient of
    [n] by [1024 ^ i]: [float(n)] is exact for [0 <= n <= 2 ^ 53], and a
    division by [1024.0] only lowers the binary exponent.  [room] is the
    number of units left above [i]. *)
Fixpoint scale (room : nat) (n : Z) (i : nat) : nat :=
  match room with
  | 0 => i
  | S room' =>
      if (1024 ^ Z.of_nat (S i) <=? n)%Z then scale room' n (S i) else i
  end.

(** The quotient [num / den] rounded to the nearest integer, ties to the
    even one: with [num = 10 * n] these are the tenths that the format
    [.1f] prints, since it rounds the exact value of the float. *)
Definition round_half_even (num den : Z) : Z :=
  let q := (num / den)%Z in
  let r := (num mod den)%Z in
  if (2 * r <? den)%Z then q
  else if (den <? 2 * r)%Z then (q + 1)%Z
  else if Z.even q then q else (q + 1)%Z.

(** [format_bytes], for [n <= 2 ^ 53]. *)
Definition format_bytes (n : Z) : string :=
  if (n <? 0)%Z then "0B"
  else
    let i := scale 5 n 0 in
    let unit := nth i units "" in
    if i =? 0 then (str_of_Z n ++ unit)%string
    else
      let tenths := round_half_even (10 * n) (1024 ^ Z.of_nat i) in
      (str_of_Z (tenths / 10) ++ "." ++ str_of_Z (tenths mod 10)
       ++ unit)%string.

(** ** The command runner route *)

Section Runner.

(** The float of the request and the two things the route does with it:
    the test [timeout_s <= 0] and the constant [120.0]. *)
Variable Timeout : Type.
Variable le_zero : Timeout -> bool.
Variable default_timeout : Timeout.

Inductive RunDecision : Type :=
| HTTPError (status_code : nat) (detail : string)
| RunShell (cmd : string) (timeout_s : Timeout).

(** [api_run] of [web.py] up to the call of [run_shell_command];
    [enable_runner] is the environment variable
    [DIAGTERM_WEB_ENABLE_RUNNER]. *)
Definition api_run (enable_runner : option string) (req_cmd : string)
  (req_timeout : Timeout) : RunDecision :=
  let flag := match enable_runner with Some v => v | None => "0" end in
  if negb (String.eqb flag "1") then
    HTTPError 403
      "Command runner disabled (set DIAGTERM_WEB_ENABLE_RUNNER=1 to enable)"
  else
    let cmd := PyStr.strip req_cmd in
    if PyStr.is_empty cmd then HTTPError 400 "cmd is required"
    else RunShell cmd
           (if le_zero req_timeout then default_timeout else req_timeout).

End Runner.

Arguments HTTPError {Timeout}.
Arguments RunShell {Timeout}.

(** ** Vocabulary of the statements *)

(** The part of the state that no method assigns to. *)
Definition same_config (s s' : Feed) : Prop :=
  limit s' = limit s /\ _journalctl s' = _journalctl s /\ _dmesg s' = _dmesg s.

(** The fetch of the selected backend raises: the journal command fails,
    or every dmesg candidate does.  The cases are those of the dispatch
    in [poll]. *)
Definition fetch_fails (run : World) (s : Feed) : Prop :=
  match _backend s, _journalctl s, _dmesg s with
  | Some journal, Some _, _ => run (journal_argv s) = None
  | Some dmesg, _, Some tool =>
      fst (first_success run (dmesg_candidates tool)) = None
  | _, _, _ => False
  end.

(** The failover order as the specification words it: journal, then the
    ring buffer, then nothing. *)
Definition next_in_priority (b : option Backend) : option Backend :=
  match b with
  | Some journal => Some dmesg
  | Some dmesg => None
  | None => None
  end.

(** A journal fetch that brings no entry line. *)
Definition journal_idle (run : World) (s : Feed) : Prop :=
  exists out : string,
    run (journal_argv s) = Some out /\
    _filter_journal_lines (PyStr.splitlines out) = [].

(** The source has emitted nothing since the tail marker was taken: the
    fetched window of the selected backend ends with the marker, which is
    also the newest buffered line, and no cursor is in use. *)
Definition settled (run : World) (s : Feed) : Prop :=
  exists m : string,
    PyList.last_opt (_buffer s) = Some m /\
    match _backend s with
    | Some dmesg =>
        exists tool text tried,
          _dmesg s = Some tool /\
          first_success run (dmesg_candidates tool) = (Some text, tried) /\
          _dmesg_tail s = Some m /\
          PyList.last_opt (dmesg_lines text) = Some m
    | Some journal =>
        exists out,
          _journalctl s <> None /\
          PyStr.truthy (_cursor s) = false /\
          run (journal_argv s) = Some out /\
          PyStr.truthy (_extract_cursor (PyStr.splitlines out)) = false /\
          _journal_tail s = Some m /\
          PyList.last_opt (_filter_journal_lines (PyStr.splitlines out))
          = Some m
    | None => False
    end.

(** The cursor is absent or a non-empty token, and absent whenever the
    journal is not the selected backend. *)
Definition cursor_ok (s : Feed) : Prop :=
  (_cursor s = None \/ PyStr.truthy (_cursor s) = true) /\
  (_backend s <> Some journal -> _cursor s = None).

(** A line as [dmesg_lines] keeps it: not empty, no trailing blanks, no
    line break inside. *)
Definition window_line (l : string) : Prop :=
  l <> "" /\ PyStr.rstrip l = l /\ PyStr.no_linebreak l = true.

(** An item of a split: not empty and starting with no blank. *)
Definition item (w : string) : Prop := w <> "" /\ PyStr.lstrip w = w.

(** A row as the table shows it: a unit name and a state that are single
    words, and a description that is not empty and starts with no blank. *)
Definition row_ok (r : Services.ServiceRow) : Prop :=
  (Services.name r <> "" /\ PyText.has_space (Services.name r) = false) /\
  (Services.active r <> "" /\ PyText.has_space (Services.active r) = false) /\
  (Services.description r <> "" /\
   PyStr.lstrip (Services.description r) = Services.description r).

(** The clock part of the display, from the total of seconds. *)
Definition clock (t : Z) : string :=
  (pad2 (t / 3600 mod 24) ++ ":" ++ pad2 (t / 60 mod 60) ++ ":"
   ++ pad2 (t mod 60))%string.

(** An ordinary entry line as a tool prints it: one line, no trailing
    blanks, not empty, neither the sentinel nor a cursor trailer. *)
Definition entry_line (l : string) : bool :=
  PyStr.no_linebreak l && String.eqb (PyStr.rstrip l) l
  && negb (PyStr.is_empty l) && negb (String.eqb l no_entries)
  && negb (PyStr.startswith l cursor_prefix).

(** What [_filter_journal_lines] lets through. *)
Definition kept_line (l : string) : Prop :=
  l <> "" /\ l <> no_entries /\ PyStr.startswith l cursor_prefix = false.

(** * Properties *)

(** ** The bounded deque *)

Section DequeFacts.

Variable maxlen : nat.

Lemma append_skipn (d : list string) (x : string) :
  List.length d <= maxlen ->
  Deque.append maxlen d x
  = skipn (List.length (d ++ [x]) - maxlen) (d ++ [x]).
Proof.
  intros Hd. unfold Deque.append.
  rewrite length_app. cbn [List.length].
  destruct (Nat.ltb_spec maxlen (List.length d + 1)) as [Hlt | Hge].
  - replace (List.length d + 1 - maxlen) with 1 by lia.
    destruct (d ++ [x]); reflexivity.
  - replace (List.length d + 1 - maxlen) with 0 by lia. reflexivity.
Qed.

Lemma append_length (d : list string) (x : string) :
  List.length d <= maxlen ->
  List.length (Deque.append maxlen d x) <= maxlen.
Proof.
  intros Hd. rewrite append_skipn by exact Hd.
  rewrite length_skipn, length_app. cbn [List.length]. lia.
Qed.

(** Appending a run of lines keeps the newest [maxlen] entries of the
    old contents followed by the new ones, in their order. *)
Lemma extend_skipn (xs d : list string) :
  List.length d <= maxlen ->
  Deque.extend maxlen d xs
  = skipn (List.length (d ++ xs) - maxlen) (d ++ xs).
Proof.
  revert d. induction xs as [| x xs IH]; intros d Hd.
  - cbn [Deque.extend fold_left]. rewrite app_nil_r.
    replace (List.length d - maxlen) with 0 by lia. reflexivity.
  - cbn [Deque.extend fold_left].
    change (fold_left (Deque.append maxlen) xs (Deque.append maxlen d x))
      with (Deque.extend maxlen (Deque.append maxlen d x) xs).
    rewrite IH by (apply append_length; exact Hd).
    rewrite append_skipn by exact Hd.
    set (k := List.length (d ++ [x]) - maxlen).
    assert (Hk : k <= List.length (d ++ [x])) by (subst k; lia).
    assert (Happ : skipn k (d ++ [x]) ++ xs = skipn k ((d ++ [x]) ++ xs)).
    { rewrite (skipn_app k (d ++ [x]) xs).
      replace (k - List.length (d ++ [x])) with 0 by lia. reflexivity. }
    rewrite Happ, skipn_skipn, <- app_assoc. cbn [app].
    f_equal. rewrite length_skipn.
    subst k. rewrite !length_app. cbn [List.length]. lia.
Qed.

Lemma extend_length (xs d : list string) :
  List.length d <= maxlen ->
  List.length (Deque.extend maxlen d xs) <= maxlen.
Proof.
  intros Hd. rewrite extend_skipn by exact Hd.
  rewrite length_skipn. lia.
Qed.

Lemma extend_last_n (xs d : list string) :
  1 <= maxlen -> List.length d <= maxlen ->
  Deque.extend maxlen d xs = PyList.last_n maxlen (d ++ xs).
Proof.
  intros Hpos Hd. rewrite extend_skipn by exact Hd.
  unfold PyList.last_n.
  destruct (Nat.eqb_spec maxlen 0); [lia | reflexivity].
Qed.

Lemma last_n_length (l : list string) :
  1 <= maxlen -> List.length (PyList.last_n maxlen l) <= maxlen.
Proof.
  intros Hpos. unfold PyList.last_n.
  destruct (Nat.eqb_spec maxlen 0); [lia |].
  rewrite length_skipn. lia.
Qed.

Lemma last_n_idem (l : list string) :
  1 <= maxlen ->
  PyList.last_n maxlen (PyList.last_n maxlen l) = PyList.last_n maxlen l.
Proof.
  intros Hpos. unfold PyList.last_n.
  destruct (Nat.eqb_spec maxlen 0); [lia |].
  rewrite length_skipn.
  replace (List.length l - (List.length l - maxlen) - maxlen) with 0 by lia.
  reflexivity.
Qed.

(** Clearing and refilling with a slice that fits leaves that slice. *)
Lemma extend_nil_last_n (l : list string) :
  1 <= maxlen ->
  Deque.extend maxlen [] (PyList.last_n maxlen l) = PyList.last_n maxlen l.
Proof.
  intros Hpos. rewrite extend_last_n by (cbn; lia).
  cbn [app]. apply last_n_idem. exact Hpos.
Qed.

End DequeFacts.

(** ** The backward scan *)

Section ScanFacts.

Lemma last_opt_app (l : list string) (x : string) :
  PyList.last_opt (l ++ [x]) = Some x.
Proof.
  induction l as [| a l IH]; [reflexivity |].
  cbn [app PyList.last_opt]. rewrite IH.
  destruct (l ++ [x]) eqn:E; [destruct l; discriminate | reflexivity].
Qed.

Lemma last_opt_nth (l : list string) :
  PyList.last_opt l = nth_error l (List.length l - 1).
Proof.
  induction l as [| a l IH]; [reflexivity |].
  destruct l as [| b l]; [reflexivity |].
  change (PyList.last_opt (a :: b :: l)) with (PyList.last_opt (b :: l)).
  rewrite IH. cbn [List.length].
  replace (S (S (List.length l)) - 1) with (S (S (List.length l) - 1))
    by lia.
  reflexivity.
Qed.

Lemma last_opt_skipn (l : list string) (k : nat) :
  k < List.length l -> PyList.last_opt (skipn k l) = PyList.last_opt l.
Proof.
  intros Hk. rewrite !last_opt_nth, nth_error_skipn, length_skipn.
  f_equal. lia.
Qed.

Lemma last_opt_last_n (n : nat) (l : list string) :
  1 <= n -> PyList.last_opt (PyList.last_n n l) = PyList.last_opt l.
Proof.
  intros Hn. unfold PyList.last_n.
  destruct (Nat.eqb_spec n 0); [lia |].
  destruct l as [| a l]; [reflexivity |].
  apply last_opt_skipn. cbn [List.length]. lia.
Qed.

Lemma scan_back_none (l : list string) (m : string) (k : nat) :
  k <= List.length l ->
  ~ In m (firstn k l) -> PyList.scan_back l (Some m) k = None.
Proof.
  induction k as [| k IH]; intros Hk Hnot; [reflexivity |].
  cbn [PyList.scan_back PyStr.eq_opt].
  destruct (String.eqb_spec (nth k l "") m) as [Heq | Hne].
  - exfalso. apply Hnot. rewrite <- Heq.
    rewrite <- (firstn_skipn (S k) l) at 1.
    rewrite app_nth1 by (rewrite length_firstn; lia).
    apply nth_In. rewrite length_firstn. lia.
  - apply IH; [lia |]. intros Hin. apply Hnot.
    rewrite <- (firstn_skipn k (firstn (S k) l)).
    apply in_or_app. left.
    rewrite firstn_firstn. replace (Nat.min k (S k)) with k by lia.
    exact Hin.
Qed.

Lemma scan_back_found (l : list string) (m : string) (i k : nat) :
  i < k -> k <= List.length l ->
  nth_error l i = Some m ->
  (forall j, i < j -> j < k -> nth j l "" <> m) ->
  PyList.scan_back l (Some m) k = Some i.
Proof.
  induction k as [| k IH]; intros Hik Hk Hnth Hafter; [lia |].
  cbn [PyList.scan_back PyStr.eq_opt].
  destruct (Nat.eq_dec i k) as [-> | Hne].
  - rewrite (nth_error_nth _ _ "" Hnth), String.eqb_refl. reflexivity.
  - destruct (String.eqb_spec (nth k l "") m) as [Heq | Hneq].
    + exfalso. apply (Hafter k); [lia | lia | exact Heq].
    + apply IH; [lia | lia | exact Hnth |].
      intros j Hj1 Hj2. apply Hafter; lia.
Qed.

(** The scan returns the last position at which the marker stands. *)
Lemma rindex_found (l : list string) (m : string) (i : nat) :
  nth_error l i = Some m ->
  ~ In m (skipn (S i) l) ->
  PyList.rindex l (Some m) = Some i.
Proof.
  intros Hnth Hnot. unfold PyList.rindex.
  assert (Hi : i < List.length l).
  { apply nth_error_Some. rewrite Hnth. discriminate. }
  apply scan_back_found; [exact Hi | lia | exact Hnth |].
  intros j Hj1 Hj2 Heq. apply Hnot.
  replace j with (S i + (j - S i)) in Heq by lia.
  rewrite <- nth_skipn in Heq. rewrite <- Heq.
  apply nth_In. rewrite length_skipn. lia.
Qed.

Lemma rindex_absent (l : list string) (m : string) :
  ~ In m l -> PyList.rindex l (Some m) = None.
Proof.
  intros Hnot. unfold PyList.rindex.
  apply scan_back_none; [lia |]. rewrite firstn_all. exact Hnot.
Qed.

Lemma rindex_last (l : list string) (m : string) :
  PyList.last_opt l = Some m ->
  PyList.rindex l (Some m) = Some (List.length l - 1).
Proof.
  intros Hlast. rewrite last_opt_nth in Hlast.
  assert (Hlen : List.length l - 1 < List.length l).
  { apply nth_error_Some. rewrite Hlast. discriminate. }
  apply rindex_found; [exact Hlast |].
  rewrite skipn_all2 by lia. intros [].
Qed.

End ScanFacts.

(** ** What a poll leaves alone, and the class invariant *)

Ltac feed_simpl :=
  cbn [lines reset feed calls snapshot
       limit _buffer _backend _journalctl _dmesg _cursor _journal_tail
       _dmesg_tail
       set_buffer set_backend set_cursor set_journal_tail set_dmesg_tail
       refill append_all dmesg_reset journal_reset] in *.

Ltac break_match :=
  match goal with
  | |- context [match ?x with _ => _ end] => destruct x eqn:?
  end.

Lemma same_config_refl (s : Feed) : same_config s s.
Proof. repeat split. Qed.

Lemma same_config_trans (s1 s2 s3 : Feed) :
  same_config s1 s2 -> same_config s2 s3 -> same_config s1 s3.
Proof. unfold same_config. intuition congruence. Qed.

Lemma poll_dmesg_config (run : World) (s : Feed) (force : bool) :
  same_config s (feed (_poll_dmesg run s force)).
Proof.
  unfold _poll_dmesg, same_config.
  repeat break_match; feed_simpl; repeat split; congruence.
Qed.

Lemma poll_journalctl_config (run : World) (s : Feed) :
  same_config s (feed (_poll_journalctl run s)).
Proof.
  unfold _poll_journalctl.
  destruct (run (journal_argv s)) as [out |].
  - unfold same_config.
    repeat break_match; feed_simpl; repeat split; congruence.
  - destruct (_dmesg s) eqn:Hd; feed_simpl;
      [| unfold same_config; feed_simpl; repeat split; congruence].
    eapply same_config_trans; [| apply poll_dmesg_config].
    unfold same_config; feed_simpl. repeat split; congruence.
Qed.

Lemma select_backend_config (s s' : Feed) :
  select_backend s = Some s' ->
  same_config s s' /\ _buffer s' = _buffer s.
Proof.
  unfold select_backend, same_config.
  repeat break_match; intros H; inversion H; subst; feed_simpl;
    repeat split; congruence.
Qed.

Lemma poll_config (run : World) (s : Feed) :
  same_config s (feed (poll run s)).
Proof.
  unfold poll.
  destruct (select_backend s) as [s1 |] eqn:Hsel;
    [| apply same_config_refl].
  apply select_backend_config in Hsel. destruct Hsel as [Hcfg _].
  eapply same_config_trans; [exact Hcfg |].
  destruct (_backend s1) as [[|] |] eqn:Hb;
    destruct (_journalctl s1) eqn:Hj;
    destruct (_dmesg s1) eqn:Hd; feed_simpl;
    try (unfold same_config; feed_simpl; repeat split; congruence);
    try apply poll_dmesg_config;
    break_match; feed_simpl; apply poll_journalctl_config.
Qed.

Lemma wf_refill (ls : list string) (s : Feed) :
  1 <= limit s -> wf (refill ls s).
Proof.
  intros Hpos. split; feed_simpl; [exact Hpos |].
  apply extend_length. cbn. lia.
Qed.

Lemma wf_append_all (xs : list string) (s : Feed) :
  wf s -> wf (append_all xs s).
Proof.
  intros [Hpos Hlen]. split; feed_simpl; [exact Hpos |].
  apply extend_length. exact Hlen.
Qed.

Lemma wf_clear (s : Feed) : 1 <= limit s -> wf (set_buffer [] s).
Proof. intros Hpos. split; feed_simpl; [exact Hpos | cbn; lia]. Qed.

Lemma wf_same_buffer (s s' : Feed) :
  limit s' = limit s -> _buffer s' = _buffer s -> wf s -> wf s'.
Proof. unfold wf. intros -> ->. tauto. Qed.

Ltac wf_step :=
  first
    [ assumption
    | apply wf_refill; feed_simpl; assumption
    | apply wf_clear; feed_simpl; assumption
    | apply wf_append_all
    | eapply wf_same_buffer; [reflexivity | reflexivity |] ].

Lemma poll_dmesg_wf (run : World) (s : Feed) (force : bool) :
  wf s -> wf (feed (_poll_dmesg run s force)).
Proof.
  intros Hwf. pose proof Hwf as [Hpos _].
  unfold _poll_dmesg.
  repeat break_match; feed_simpl; unfold dmesg_reset;
    repeat wf_step.
Qed.

Lemma poll_journalctl_wf (run : World) (s : Feed) :
  wf s -> wf (feed (_poll_journalctl run s)).
Proof.
  intros Hwf. pose proof Hwf as [Hpos _].
  unfold _poll_journalctl.
  destruct (run (journal_argv s)) as [out |].
  - repeat break_match; feed_simpl; unfold journal_reset;
      repeat wf_step.
  - destruct (_dmesg s) eqn:Hd; feed_simpl.
    + apply poll_dmesg_wf. repeat wf_step.
    + repeat wf_step.
Qed.

Lemma poll_wf (run : World) (s : Feed) : wf s -> wf (feed (poll run s)).
Proof.
  intros Hwf. unfold poll.
  destruct (select_backend s) as [s1 |] eqn:Hsel; [| exact Hwf].
  apply select_backend_config in Hsel.
  destruct Hsel as [[Hlim _] Hbuf].
  assert (Hwf1 : wf s1) by (eapply wf_same_buffer; eassumption).
  pose proof Hwf1 as [Hpos _].
  destruct (_backend s1) as [[|] |]; destruct (_journalctl s1);
    destruct (_dmesg s1); feed_simpl;
    try (apply poll_dmesg_wf; exact Hwf1);
    try (repeat wf_step; fail);
    break_match; feed_simpl; apply poll_journalctl_wf; exact Hwf1.
Qed.

Lemma init_wf (lim : Z) (wj wd : option string) : wf (__init__ lim wj wd).
Proof. split; cbn [__init__ limit _buffer List.length]; lia. Qed.

Lemma feed_after_wf (runs : list World) (s : Feed) :
  wf s -> wf (feed_after runs s).
Proof.
  revert s. induction runs as [| run runs IH]; intros s Hwf; [exact Hwf |].
  cbn [feed_after]. apply IH, poll_wf, Hwf.
Qed.

Lemma feed_after_config (runs : list World) (s : Feed) :
  same_config s (feed_after runs s).
Proof.
  revert s. induction runs as [| run runs IH]; intros s;
    [apply same_config_refl |].
  cbn [feed_after].
  eapply same_config_trans; [apply poll_config | apply IH].
Qed.

(** ** Polls that do not reset *)

Lemma poll_dmesg_forced (run : World) (s : Feed) :
  reset (_poll_dmesg run s true) = true.
Proof.
  unfold _poll_dmesg. cbn [orb].
  repeat break_match; reflexivity.
Qed.

Lemma poll_dmesg_append (run : World) (s : Feed) (force : bool) :
  let o := _poll_dmesg run s force in
  reset o = false ->
  _buffer (feed o) = Deque.extend (limit s) (_buffer s) (lines o).
Proof.
  unfold _poll_dmesg.
  repeat break_match; feed_simpl; intros H; try discriminate H.
  reflexivity.
Qed.

Lemma poll_journalctl_append (run : World) (s : Feed) :
  let o := _poll_journalctl run s in
  reset o = false ->
  _buffer (feed o) = Deque.extend (limit s) (_buffer s) (lines o).
Proof.
  unfold _poll_journalctl.
  destruct (run (journal_argv s)) as [out |].
  - repeat break_match; feed_simpl; intros H; try discriminate H;
      reflexivity.
  - destruct (_dmesg s); feed_simpl; intros H; [| discriminate H].
    rewrite poll_dmesg_forced in H. discriminate H.
Qed.

Lemma poll_append (run : World) (s : Feed) :
  let o := poll run s in
  reset o = false ->
  _buffer (feed o) = Deque.extend (limit s) (_buffer s) (lines o).
Proof.
  unfold poll.
  destruct (select_backend s) as [s1 |] eqn:Hsel;
    [| feed_simpl; discriminate].
  apply select_backend_config in Hsel.
  destruct Hsel as [[Hlim _] Hbuf]. rewrite <- Hlim, <- Hbuf.
  destruct (_backend s1) as [[|] |]; destruct (_journalctl s1);
    destruct (_dmesg s1); feed_simpl;
    try discriminate; try apply poll_dmesg_append.
  all: pose proof (poll_journalctl_append run s1) as Hj; cbv zeta in Hj;
    destruct (reset (_poll_journalctl run s1)) eqn:Hr;
    rewrite ?orb_true_r, ?orb_false_r; feed_simpl;
    try discriminate;
    destruct (lines (_poll_journalctl run s1)) eqn:Hl;
    cbn [List.length Nat.eqb negb]; feed_simpl; intros _;
    rewrite Hj by reflexivity; rewrite ?Hl; reflexivity.
Qed.

(** ** Tail diff of the ring-buffer backend *)

(** C1. A dmesg fetch without forced reset, with tail marker [M] recorded
    and fresh window [W2]: when [M] stands at index [i] of [W2] and nowhere
    after it, the fetch returns [(W2[i+1:], False)] and appends exactly
    those lines to the buffer; when [M] is nowhere in [W2], the buffer is
    cleared and refilled with the last [L] lines of [W2], the tail marker
    becomes the last line of that slice, and the fetch returns that slice
    with [True]. *)
Theorem dmesg_tail_diff
  (run : World) (s : Feed) (tool text M : string) (tried : list Argv) :
  wf s ->
  _dmesg s = Some tool ->
  _dmesg_tail s = Some M ->
  first_success run (dmesg_candidates tool) = (Some text, tried) ->
  let W2 := dmesg_lines text in
  let L := limit s in
  let o := _poll_dmesg run s false in
  (forall i : nat,
      nth_error W2 i = Some M -> ~ In M (skipn (S i) W2) ->
      lines o = skipn (S i) W2 /\ reset o = false /\
      _buffer (feed o) = Deque.extend L (_buffer s) (skipn (S i) W2) /\
      _buffer (feed o) = PyList.last_n L (_buffer s ++ skipn (S i) W2))
  /\
  (~ In M W2 ->
      lines o = PyList.last_n L W2 /\ reset o = true /\
      _buffer (feed o) = PyList.last_n L W2 /\
      _dmesg_tail (feed o) = PyList.last_opt (PyList.last_n L W2)).
Proof.
  intros [Hpos Hlen] Htool Htail Hfetch W2 L o.
  subst o. unfold _poll_dmesg.
  rewrite Htool, Hfetch, Htail. cbn [orb PyStr.is_not_none negb].
  fold W2. split.
  - intros i Hnth Hafter.
    rewrite (rindex_found W2 M i Hnth Hafter). feed_simpl.
    repeat split; try reflexivity.
    apply extend_last_n; assumption.
  - intros Habsent.
    rewrite (rindex_absent W2 M Habsent). feed_simpl.
    fold L. rewrite extend_nil_last_n by exact Hpos.
    repeat split; reflexivity.
Qed.

Lemma dmesg_tail_diff_witness :
  let s := mkFeed 3 ["a"; "b"] (Some dmesg) None (Some "/bin/dmesg")
                  None None (Some "b") in
  let run : World := fun _ => Some (PyStr.unlines ["a"; "b"; "c"; "d"]) in
  let o := _poll_dmesg run s false in
  lines o = ["c"; "d"] /\ reset o = false /\
  _buffer (feed o) = ["b"; "c"; "d"].
Proof.
  intros s run o.
  assert (Hwf : wf s) by (split; cbn; lia).
  destruct (dmesg_tail_diff run s "/bin/dmesg"
              (PyStr.unlines ["a"; "b"; "c"; "d"]) "b"
              [["/bin/dmesg"; "--color=never"; "--level=err,warn"; "--ctime"]]
              Hwf eq_refl eq_refl eq_refl) as [Hfound _].
  destruct (Hfound 1 eq_refl) as (Hl & Hr & _ & Hb).
  - vm_compute. intros [H | [H | []]]; discriminate H.
  - subst o. rewrite Hl, Hr, Hb. repeat split.
Defined.

(** ** Buffer bound and order *)

(** C3. Along every run of polls on a feed built with capacity [L], the
    snapshot never holds more than [L] lines; a poll that does not reset
    leaves the old lines in their order followed by the new ones, having
    dropped only a prefix (the oldest lines), and only when the buffer is
    full; a rebuild keeps the newest [L] lines of its source in order. *)
Theorem buffer_bound_and_order
  (lim : Z) (wj wd : option string) (runs : list World) (run : World) :
  let L := Z.to_nat (Z.max 1 lim) in
  let s := feed_after runs (__init__ lim wj wd) in
  let o := poll run s in
  List.length (snapshot s) <= L /\
  List.length (snapshot (feed o)) <= L /\
  (reset o = false ->
   exists evicted : list string,
     evicted ++ snapshot (feed o) = snapshot s ++ lines o /\
     (evicted <> [] -> List.length (snapshot (feed o)) = L)) /\
  (forall ls : list string,
      snapshot (refill ls s) = PyList.last_n L ls).
Proof.
  intros L s o.
  assert (Hwf : wf s) by (apply feed_after_wf, init_wf).
  assert (HL : limit s = L).
  { destruct (feed_after_config runs (__init__ lim wj wd)) as [H _].
    exact H. }
  assert (Hwf' : wf (feed o)) by (apply poll_wf, Hwf).
  assert (HL' : limit (feed o) = L).
  { destruct (poll_config run s) as [H _]. fold o in H. congruence. }
  destruct Hwf as [Hpos Hlen]. destruct Hwf' as [_ Hlen'].
  unfold snapshot. rewrite <- HL at 1. rewrite <- HL' at 1.
  repeat split; try assumption.
  - intros Hreset.
    pose proof (poll_append run s) as Happ. cbv zeta in Happ.
    fold o in Happ. specialize (Happ Hreset).
    rewrite extend_skipn in Happ by exact Hlen.
    set (all := _buffer s ++ lines o) in *.
    exists (firstn (List.length all - limit s) all). split.
    + rewrite Happ. apply firstn_skipn.
    + intros Hne. rewrite Happ, length_skipn.
      destruct (List.length all - limit s) eqn:Hk;
        [exfalso; apply Hne; reflexivity | lia].
  - intros ls. cbn [refill set_buffer _buffer]. rewrite HL.
    apply extend_nil_last_n. lia.
Qed.

(** C10. A poll that returns [(lines, False)] leaves in the buffer the
    last [L] elements of the old buffer followed by the returned lines. *)
Theorem append_consistency (run : World) (s : Feed) :
  wf s ->
  reset (poll run s) = false ->
  snapshot (feed (poll run s))
  = PyList.last_n (limit s) (snapshot s ++ lines (poll run s)).
Proof.
  intros [Hpos Hlen] Hreset. unfold snapshot.
  pose proof (poll_append run s) as Happ. cbv zeta in Happ.
  rewrite (Happ Hreset). apply extend_last_n; assumption.
Qed.

Lemma append_consistency_witness :
  let s := mkFeed 3 ["a"; "b"] (Some dmesg) None (Some "/bin/dmesg")
                  None None (Some "b") in
  let run : World := fun _ => Some (PyStr.unlines ["a"; "b"; "c"; "d"]) in
  wf s /\ reset (poll run s) = false /\
  snapshot (feed (poll run s))
  = PyList.last_n (limit s) (snapshot s ++ lines (poll run s)).
Proof.
  intros s run.
  assert (Hwf : wf s) by (split; cbn; lia).
  split; [exact Hwf |]. split; [reflexivity |].
  apply (append_consistency run s Hwf). reflexivity.
Defined.

(** ** Reset completeness *)

Lemma poll_dmesg_reset_lines (run : World) (s : Feed) (force : bool) :
  let o := _poll_dmesg run s force in
  reset o = true -> lines o = snapshot (feed o).
Proof.
  unfold _poll_dmesg.
  repeat break_match; feed_simpl; intros H; try discriminate H;
    reflexivity.
Qed.

Lemma poll_journalctl_reset_lines (run : World) (s : Feed) :
  let o := _poll_journalctl run s in
  reset o = true -> lines o = snapshot (feed o).
Proof.
  unfold _poll_journalctl.
  destruct (run (journal_argv s)) as [out |].
  - repeat break_match; feed_simpl; intros H; try discriminate H;
      reflexivity.
  - destruct (_dmesg s); feed_simpl; intros H; [| reflexivity].
    apply poll_dmesg_reset_lines. exact H.
Qed.

(** Outside the early return of [poll], a reset hands back the buffer. *)
Lemma poll_reset_lines (run : World) (s : Feed) :
  let o := poll run s in
  reset o = true ->
  select_backend s <> None ->
  lines o = snapshot (feed o).
Proof.
  unfold poll.
  destruct (select_backend s) as [s1 |] eqn:Hsel;
    [| intros _ H; exfalso; apply H; reflexivity].
  destruct (_backend s1) as [[|] |]; destruct (_journalctl s1);
    destruct (_dmesg s1); feed_simpl; intros Hr _;
    try reflexivity; try (apply poll_dmesg_reset_lines; exact Hr).
  all: pose proof (poll_journalctl_reset_lines run s1) as Hj;
    cbv zeta in Hj;
    destruct (reset (_poll_journalctl run s1)) eqn:Hreset;
    rewrite ?orb_true_r, ?orb_false_r in *; feed_simpl;
    [ apply Hj; reflexivity
    | destruct (negb (List.length (lines (_poll_journalctl run s1)) =? 0));
      feed_simpl; discriminate Hr ].
Qed.

(** C4. Whenever a poll returns [resetRequired = True], the value the
    caller is to show, [lines] or else [snapshot()] when [lines] is
    empty, is the whole buffer as it stands after the poll. *)
Theorem reset_completeness (run : World) (s : Feed) :
  let o := poll run s in
  reset o = true ->
  match lines o with
  | [] => snapshot (feed o)
  | _ :: _ => lines o
  end = _buffer (feed o).
Proof.
  intros o Hreset.
  destruct (lines o) as [| l ls] eqn:Hl; [reflexivity |].
  rewrite <- Hl. subst o. apply poll_reset_lines; [exact Hreset |].
  intros Hsel. unfold poll in Hl. rewrite Hsel in Hl. discriminate Hl.
Qed.

Lemma reset_completeness_witness :
  let s := __init__ 3 None (Some "/bin/dmesg") in
  let run : World := fun _ => Some (PyStr.unlines ["a"; "b"; "c"; "d"]) in
  let o := poll run s in
  reset o = true /\ lines o = ["b"; "c"; "d"] /\
  match lines o with
  | [] => snapshot (feed o)
  | _ :: _ => lines o
  end = _buffer (feed o).
Proof.
  intros s run o.
  split; [reflexivity |]. split; [reflexivity |].
  apply (reset_completeness run s). reflexivity.
Defined.

(** [_poll_dmesg] never assigns the selection; [_poll_journalctl] only
    moves it to dmesg. *)
Lemma poll_dmesg_backend (run : World) (s : Feed) (force : bool) :
  _backend (feed (_poll_dmesg run s force)) = _backend s.
Proof. unfold _poll_dmesg. repeat break_match; reflexivity. Qed.

Lemma poll_journalctl_backend (run : World) (s : Feed) :
  _backend (feed (_poll_journalctl run s)) = _backend s \/
  (_backend (feed (_poll_journalctl run s)) = Some dmesg /\
   _dmesg s <> None /\ run (journal_argv s) = None).
Proof.
  unfold _poll_journalctl.
  destruct (run (journal_argv s)) as [out |].
  - left. repeat break_match; reflexivity.
  - destruct (_dmesg s) eqn:Hd; feed_simpl; [right | left; reflexivity].
    rewrite poll_dmesg_backend. repeat split. discriminate.
Qed.

(** A poll that ends with no backend selected ends with an empty buffer,
    unless it was the early return. *)
Lemma poll_unselected (run : World) (s : Feed) :
  _backend (feed (poll run s)) = None ->
  _buffer (feed (poll run s)) = [] \/
  (feed (poll run s) = s /\ _backend s = None).
Proof.
  unfold poll.
  destruct (select_backend s) as [s1 |] eqn:Hsel.
  - assert (Hb1 : _backend s1 <> None).
    { unfold select_backend in Hsel. revert Hsel.
      repeat break_match; intros H; inversion H; subst; feed_simpl;
        congruence. }
    destruct (_backend s1) as [[|] |] eqn:Hb; [| | congruence];
      destruct (_journalctl s1); destruct (_dmesg s1); feed_simpl;
      try (intros _; left; reflexivity).
    + destruct (poll_journalctl_backend run s1) as [H | (H & _)];
        destruct (negb _ || _); feed_simpl; congruence.
    + destruct (poll_journalctl_backend run s1) as [H | (H & _)];
        destruct (negb _ || _); feed_simpl; congruence.
    + rewrite poll_dmesg_backend. congruence.
    + rewrite poll_dmesg_backend. congruence.
  - feed_simpl. intros _. right. split; [reflexivity |].
    unfold select_backend in Hsel. destruct (_backend s); [| reflexivity].
    discriminate Hsel.
Qed.

Lemma unselected_empty (runs : list World) (s : Feed) :
  (_backend s = None -> _buffer s = []) ->
  _backend (feed_after runs s) = None -> _buffer (feed_after runs s) = [].
Proof.
  revert s. induction runs as [| run runs IH]; intros s Hs; [exact Hs |].
  cbn [feed_after]. apply IH. intros Hnone.
  destruct (poll_unselected run s Hnone) as [H | [Heq Hb]];
    [exact H | rewrite Heq; apply Hs, Hb].
Qed.

(** On a feed obtained from the constructor the returned [lines] of a
    reset are the snapshot itself, empty or not. *)
Lemma reset_lines_are_snapshot
  (runs : list World) (lim : Z) (wj wd : option string) (run : World) :
  let o := poll run (feed_after runs (__init__ lim wj wd)) in
  reset o = true -> lines o = snapshot (feed o).
Proof.
  intros o Hreset. subst o.
  destruct (select_backend (feed_after runs (__init__ lim wj wd)))
    as [s1 |] eqn:Hsel.
  - apply poll_reset_lines; [exact Hreset |]. rewrite Hsel. discriminate.
  - unfold poll. rewrite Hsel. feed_simpl. symmetry.
    apply unselected_empty; [reflexivity |].
    unfold select_backend in Hsel.
    destruct (_backend (feed_after runs (__init__ lim wj wd)));
      [discriminate Hsel | reflexivity].
Qed.

(** ** Commands run by a poll *)

Lemma first_success_tried (run : World) (cands : list Argv) :
  Forall (fun a => In a cands) (snd (first_success run cands)).
Proof.
  induction cands as [| a cands IH]; cbn [first_success]; [constructor |].
  destruct (run a) as [out |].
  - cbn [snd]. constructor; [left; reflexivity | constructor].
  - destruct (first_success run cands) as [r tried]. cbn [snd] in *.
    constructor; [left; reflexivity |].
    eapply Forall_impl; [| exact IH]. intros x Hx. right. exact Hx.
Qed.

Lemma first_success_none (run : World) (cands : list Argv) :
  fst (first_success run cands) = None ->
  first_success run cands = (None, cands).
Proof.
  induction cands as [| a cands IH]; cbn [first_success]; [reflexivity |].
  destruct (run a) as [out |]; [discriminate |].
  destruct (first_success run cands) as [r tried]. cbn [fst] in *.
  intros Hr. specialize (IH Hr). inversion IH. reflexivity.
Qed.

Lemma poll_dmesg_calls (run : World) (s : Feed) (force : bool) (tool : string) :
  _dmesg s = Some tool ->
  Forall (fun a => In a (dmesg_candidates tool))
         (calls (_poll_dmesg run s force)).
Proof.
  intros Htool. unfold _poll_dmesg. rewrite Htool.
  pose proof (first_success_tried run (dmesg_candidates tool)) as Htried.
  destruct (first_success run (dmesg_candidates tool)) as [r tried].
  cbn [snd] in Htried.
  repeat break_match; feed_simpl; exact Htried.
Qed.

Lemma journal_argv_length (s : Feed) : List.length (journal_argv s) = 9.
Proof. unfold journal_argv. destruct (PyStr.truthy (_cursor s)); reflexivity. Qed.

Lemma journal_argv_not_dmesg (s : Feed) (tool : string) :
  ~ In (journal_argv s) (dmesg_candidates tool).
Proof.
  intros Hin. pose proof (journal_argv_length s) as Hlen.
  cbn [dmesg_candidates In] in Hin.
  repeat (destruct Hin as [Hin | Hin];
          [rewrite <- Hin in Hlen; discriminate Hlen |]).
  exact Hin.
Qed.

(** ** Sticky demotion *)

Lemma poll_stays_dmesg (run : World) (s : Feed) (tool : string) :
  _backend s = Some dmesg -> _dmesg s = Some tool ->
  let o := poll run s in
  _backend (feed o) = Some dmesg /\ _dmesg (feed o) = Some tool /\
  Forall (fun a => In a (dmesg_candidates tool)) (calls o).
Proof.
  intros Hb Hd. unfold poll, select_backend. rewrite Hb.
  cbv beta iota zeta. rewrite Hb, Hd.
  destruct (_journalctl s); cbv beta iota zeta.
  all: rewrite poll_dmesg_backend.
  all: destruct (poll_dmesg_config run s false) as (_ & _ & Hc).
  all: rewrite Hc.
  all: repeat split; try assumption; apply poll_dmesg_calls; exact Hd.
Qed.

Lemma poll_many_stays_dmesg (runs : list World) (s : Feed) (tool : string) :
  _backend s = Some dmesg -> _dmesg s = Some tool ->
  Forall (fun o => _backend (feed o) = Some dmesg /\
                   Forall (fun a => In a (dmesg_candidates tool)) (calls o))
         (poll_many runs s).
Proof.
  revert s. induction runs as [| run runs IH]; intros s Hb Hd;
    cbn [poll_many]; [constructor |].
  destruct (poll_stays_dmesg run s tool Hb Hd) as (Hb' & Hd' & Hcalls).
  constructor; [split; assumption |]. apply IH; assumption.
Qed.

(** C9. Once a poll has moved the selection from the journal to dmesg,
    every later poll leaves the selection on dmesg, and runs nothing but
    dmesg commands: the journal is not selected again. *)
Theorem demotion_sticky (run : World) (s : Feed) (runs : list World) :
  _backend s = Some journal ->
  _backend (feed (poll run s)) = Some dmesg ->
  exists tool : string,
    _dmesg s = Some tool /\
    Forall (fun o => _backend (feed o) = Some dmesg /\
                     Forall (fun a => In a (dmesg_candidates tool)) (calls o))
           (poll_many runs (feed (poll run s))).
Proof.
  intros Hb Hpost.
  destruct (_dmesg s) as [tool |] eqn:Hd.
  - exists tool. split; [reflexivity |].
    apply poll_many_stays_dmesg; [exact Hpost |].
    destruct (poll_config run s) as (_ & _ & Hc). congruence.
  - exfalso. revert Hpost. unfold poll, select_backend. rewrite Hb.
    cbv beta iota zeta. rewrite Hb.
    destruct (_journalctl s); feed_simpl; [| discriminate].
    destruct (poll_journalctl_backend run s) as [H | (_ & H & _)];
      [| congruence].
    destruct (negb _ || _); feed_simpl; congruence.
Qed.

Lemma demotion_sticky_witness :
  let s := mkFeed 3 ["old"] (Some journal) (Some "/bin/journalctl")
                  (Some "/bin/dmesg") (Some "C") (Some "old") None in
  let run : World :=
    fun argv => match argv with
                | [_] => Some (PyStr.unlines ["k1"; "k2"])
                | _ => None
                end in
  _backend s = Some journal /\
  _backend (feed (poll run s)) = Some dmesg /\
  exists tool : string,
    _dmesg s = Some tool /\
    Forall (fun o => _backend (feed o) = Some dmesg /\
                     Forall (fun a => In a (dmesg_candidates tool)) (calls o))
           (poll_many [run; run] (feed (poll run s))).
Proof.
  intros s run.
  split; [reflexivity |]. split; [reflexivity |].
  apply (demotion_sticky run s [run; run]); reflexivity.
Defined.

(** ** A failing fetch *)

(** How [poll] ends when the fetch of the selected backend fails. *)
Lemma poll_journal_fails (run : World) (s0 s : Feed) :
  select_backend s0 = Some s ->
  _backend s = Some journal -> _journalctl s <> None ->
  run (journal_argv s) = None ->
  poll run s0 =
  match _dmesg s with
  | Some _ =>
      let o' := _poll_dmesg run
                  (set_cursor None (set_backend (Some dmesg) s)) true in
      mkOutcome (lines o') true (feed o') (journal_argv s :: calls o')
  | None =>
      mkOutcome [] true (set_cursor None (set_buffer [] s)) [journal_argv s]
  end.
Proof.
  intros Hsel Hb Hj Hrun. unfold poll. rewrite Hsel, Hb.
  destruct (_journalctl s) as [tj |]; [| congruence].
  unfold _poll_journalctl. rewrite Hrun.
  destruct (_dmesg s) as [td |]; feed_simpl; [| reflexivity].
  rewrite poll_dmesg_forced, orb_true_r. reflexivity.
Qed.

Lemma poll_dmesg_fails (run : World) (s0 s : Feed) (tool : string) :
  select_backend s0 = Some s ->
  _backend s = Some dmesg -> _dmesg s = Some tool ->
  fst (first_success run (dmesg_candidates tool)) = None ->
  poll run s0 =
  mkOutcome [] true (set_dmesg_tail None (set_buffer [] s))
            (dmesg_candidates tool).
Proof.
  intros Hsel Hb Hd Hfail. unfold poll. rewrite Hsel, Hb, Hd.
  assert (Hgoal : _poll_dmesg run s false =
                  mkOutcome [] true (set_dmesg_tail None (set_buffer [] s))
                            (dmesg_candidates tool)).
  { unfold _poll_dmesg.
    rewrite Hd, (first_success_none _ _ Hfail). reflexivity. }
  destruct (_journalctl s); exact Hgoal.
Qed.

(** C2, as the code has it.  When the journal fetch fails and the dmesg
    tool is present, the poll moves the selection to dmesg and, within
    the same poll, performs one forced-reset dmesg fetch; the journal
    command has run once and is not run again.  When the journal fetch
    fails without a dmesg tool, or when the dmesg fetch itself fails, the
    selection stays where it is, the buffer is emptied and the poll
    returns [([], True)]; each failed command has run once. *)
Theorem failover_within_poll (run : World) (s0 s : Feed) :
  select_backend s0 = Some s ->
  fetch_fails run s ->
  let o := poll run s0 in
  match _backend s, _dmesg s with
  | Some journal, Some tool =>
      let o' := _poll_dmesg run
                  (set_cursor None (set_backend (Some dmesg) s)) true in
      lines o = lines o' /\ reset o = true /\ feed o = feed o' /\
      _backend (feed o) = Some dmesg /\
      calls o = journal_argv s :: calls o' /\
      Forall (fun a => In a (dmesg_candidates tool)) (calls o') /\
      ~ In (journal_argv s) (calls o')
  | Some journal, None =>
      lines o = [] /\ reset o = true /\
      feed o = set_cursor None (set_buffer [] s) /\
      _backend (feed o) = Some journal /\
      calls o = [journal_argv s]
  | Some dmesg, Some tool =>
      lines o = [] /\ reset o = true /\
      feed o = set_dmesg_tail None (set_buffer [] s) /\
      _backend (feed o) = Some dmesg /\
      calls o = dmesg_candidates tool
  | _, _ => False
  end.
Proof.
  intros Hsel Hfail o. subst o. unfold fetch_fails in Hfail.
  destruct (_backend s) as [[|] |] eqn:Hb.
  - destruct (_journalctl s) as [tj |] eqn:Hj; [| destruct Hfail].
    rewrite (poll_journal_fails run s0 s Hsel Hb) by congruence.
    destruct (_dmesg s) as [td |] eqn:Hd; feed_simpl.
    + assert (Hcalls :
          Forall (fun a => In a (dmesg_candidates td))
            (calls (_poll_dmesg run
                      (set_cursor None (set_backend (Some dmesg) s)) true)))
        by (apply poll_dmesg_calls; exact Hd).
      repeat split; try assumption.
      * rewrite poll_dmesg_backend. reflexivity.
      * intros Hin. rewrite Forall_forall in Hcalls.
        apply (journal_argv_not_dmesg s td), Hcalls, Hin.
    + repeat split. exact Hb.
  - destruct (_dmesg s) as [td |] eqn:Hd.
    + assert (Hf : fst (first_success run (dmesg_candidates td)) = None)
        by (destruct (_journalctl s); exact Hfail).
      rewrite (poll_dmesg_fails run s0 s td Hsel Hb Hd Hf). feed_simpl.
      repeat split. exact Hb.
    + destruct (_journalctl s); destruct Hfail.
  - destruct (_journalctl s); destruct (_dmesg s); destruct Hfail.
Qed.

Lemma failover_within_poll_witness :
  let s := mkFeed 3 ["old"] (Some journal) (Some "/bin/journalctl")
                  (Some "/bin/dmesg") (Some "C") (Some "old") None in
  let run : World :=
    fun argv => match argv with
                | [_] => Some (PyStr.unlines ["k1"; "k2"])
                | _ => None
                end in
  let o := poll run s in
  fetch_fails run s /\
  reset o = true /\ _backend (feed o) = Some dmesg /\
  lines o = ["k1"; "k2"] /\ List.length (calls o) = 7.
Proof.
  intros s run o.
  assert (Hfail : fetch_fails run s) by reflexivity.
  split; [exact Hfail |].
  pose proof (failover_within_poll run s s eq_refl Hfail) as H.
  cbv zeta in H. cbn [_backend _dmesg s] in H.
  destruct H as (Hl & Hr & _ & Hb & Hc & _).
  subst o. rewrite Hl, Hr, Hb, Hc. repeat split.
Defined.

(** C2 as stated fails: a dmesg feed whose fetch fails keeps dmesg
    selected, and a journal feed without a dmesg tool keeps the journal;
    neither moves to the next backend of the priority order. *)
Lemma failover_counterexample :
  let run_ok : World := fun _ => Some (PyStr.unlines ["k1"; "k2"]) in
  let run_fail : World := fun _ => None in
  let s1 := feed (poll run_ok (__init__ 3 None (Some "/bin/dmesg"))) in
  let s2 := feed (poll run_ok (__init__ 3 (Some "/bin/journalctl") None)) in
  (fetch_fails run_fail s1 /\
   _backend s1 = Some dmesg /\
   _backend (feed (poll run_fail s1)) = Some dmesg /\
   _backend (feed (poll run_fail s1)) <> next_in_priority (_backend s1)) /\
  (fetch_fails run_fail s2 /\
   _backend s2 = Some journal /\
   _backend (feed (poll run_fail s2)) = Some journal /\
   _backend (feed (poll run_fail s2)) <> next_in_priority (_backend s2)).
Proof.
  cbv zeta. repeat split; try reflexivity; vm_compute; discriminate.
Qed.

(** C6, as the code has it.  A poll whose fetch fails is an ordinary
    reset: it returns [True] with the buffer as it then stands; the old
    buffer is dropped as a whole, the new one being empty or, after a
    journal-to-dmesg failover, the last [L] lines of the dmesg window; and
    the anchor of the failed backend is cleared. *)
Theorem failed_fetch_discards (run : World) (s0 s : Feed) :
  wf s0 ->
  select_backend s0 = Some s ->
  fetch_fails run s ->
  let o := poll run s0 in
  reset o = true /\
  lines o = snapshot (feed o) /\
  (_buffer (feed o) = [] \/
   exists tool text tried,
     _backend s = Some journal /\ _dmesg s = Some tool /\
     first_success run (dmesg_candidates tool) = (Some text, tried) /\
     _buffer (feed o) = PyList.last_n (limit s0) (dmesg_lines text)) /\
  match _backend s with
  | Some journal => _cursor (feed o) = None
  | _ => _dmesg_tail (feed o) = None
  end.
Proof.
  intros Hwf Hsel Hfail o. subst o.
  destruct (select_backend_config s0 s Hsel) as [[Hlim _] _].
  destruct Hwf as [Hpos _]. unfold fetch_fails in Hfail.
  destruct (_backend s) as [[|] |] eqn:Hb.
  - destruct (_journalctl s) as [tj |] eqn:Hj; [| destruct Hfail].
    rewrite (poll_journal_fails run s0 s Hsel Hb) by congruence.
    destruct (_dmesg s) as [td |] eqn:Hd; cbv zeta; cbn [lines reset feed].
    + unfold _poll_dmesg. feed_simpl. rewrite Hd.
      destruct (first_success run (dmesg_candidates td))
        as [[text |] tried] eqn:Hfs; cbn [orb]; feed_simpl.
      * repeat split. right. exists td, text, tried.
        repeat split; [exact Hfs |]. rewrite Hlim.
        apply extend_nil_last_n. exact Hpos.
      * repeat split. left. reflexivity.
    + feed_simpl. repeat split. left. reflexivity.
  - destruct (_dmesg s) as [td |] eqn:Hd.
    + assert (Hf : fst (first_success run (dmesg_candidates td)) = None)
        by (destruct (_journalctl s); exact Hfail).
      rewrite (poll_dmesg_fails run s0 s td Hsel Hb Hd Hf). feed_simpl.
      repeat split. left. reflexivity.
    + destruct (_journalctl s); destruct Hfail.
  - destruct (_journalctl s); destruct (_dmesg s); destruct Hfail.
Qed.

Lemma failed_fetch_discards_witness :
  let s := mkFeed 3 ["old"] (Some journal) (Some "/bin/journalctl")
                  (Some "/bin/dmesg") (Some "C") (Some "old") None in
  let run : World :=
    fun argv => match argv with
                | [_] => Some (PyStr.unlines ["k1"; "k2"; "k3"; "k4"])
                | _ => None
                end in
  let o := poll run s in
  wf s /\ fetch_fails run s /\
  reset o = true /\ lines o = snapshot (feed o) /\
  _buffer (feed o) = ["k2"; "k3"; "k4"] /\ _cursor (feed o) = None.
Proof.
  intros s run o.
  assert (Hwf : wf s) by (split; cbn; lia).
  assert (Hfail : fetch_fails run s) by reflexivity.
  split; [exact Hwf |]. split; [exact Hfail |].
  destruct (failed_fetch_discards run s s Hwf eq_refl Hfail)
    as (Hr & Hl & _ & Hc).
  split; [exact Hr |]. split; [exact Hl |].
  split; [reflexivity | exact Hc].
Defined.

(** C6 as stated fails: a failed fetch on a feed that holds lines and a
    cursor empties the buffer and drops the cursor, so that feed is not
    what it was before the call. *)
Lemma failed_fetch_counterexample :
  let run_ok : World :=
    fun _ => Some (PyStr.unlines ["k1"; "k2"; "-- cursor: C"]) in
  let run_fail : World := fun _ => None in
  let s := feed (poll run_ok (__init__ 3 (Some "/bin/journalctl") None)) in
  let o := poll run_fail s in
  fetch_fails run_fail s /\
  _buffer s = ["k1"; "k2"] /\ _cursor s = Some "C" /\
  _buffer (feed o) = [] /\ _cursor (feed o) = None /\
  feed o <> s.
Proof.
  cbv zeta. repeat split; try reflexivity. vm_compute. discriminate.
Qed.

(** ** A successful journal fetch with a cursor *)

(** The branch "cursor present, fetch succeeds" of [poll], in one
    equation. *)
Lemma poll_journal_cursor (run : World) (s : Feed) (out : string) :
  _backend s = Some journal -> _journalctl s <> None ->
  PyStr.truthy (_cursor s) = true ->
  run (journal_argv s) = Some out ->
  let raw := PyStr.splitlines out in
  let c := _extract_cursor raw in
  let s1 := if PyStr.truthy c then set_cursor c s else s in
  let ls := _filter_journal_lines raw in
  let s2 := append_all ls s1 in
  poll run s =
  mkOutcome ls false
    (if negb (List.length ls =? 0)
     then set_journal_tail (PyList.last_opt (_buffer s2)) s2 else s2)
    [journal_argv s].
Proof.
  intros Hb Hj Hc Hrun raw c s1 ls s2.
  unfold poll, select_backend. rewrite Hb. cbv beta iota. rewrite Hb.
  destruct (_journalctl s) as [tj |]; [| congruence].
  unfold _poll_journalctl, journal_reset_required.
  rewrite Hrun, Hc. cbv beta iota zeta.
  fold raw. fold c. fold s1. fold ls.
  assert (Hc1 : PyStr.truthy (_cursor s1) = true).
  { subst s1. destruct (PyStr.truthy c) eqn:Htc; [exact Htc | exact Hc]. }
  rewrite Hc1. fold s2. feed_simpl.
  rewrite orb_false_r.
  destruct ls as [| l ls']; reflexivity.
Qed.

Lemma no_trailer_no_cursor (raw : list string) :
  Forall (fun ln => PyStr.startswith ln cursor_prefix = false) raw ->
  _extract_cursor raw = None.
Proof.
  intros Hall. unfold _extract_cursor.
  apply Forall_rev in Hall.
  induction Hall as [| ln rest Hln _ IH]; [reflexivity |].
  cbn [extract_cursor_scan]. rewrite Hln. exact IH.
Qed.

(** C8, as the code has it.  A journal poll made with a cursor, whose
    command succeeds with no cursor trailer in its output, keeps the
    cursor and returns, without reset, the entry lines of that output:
    no line when the output has none. *)
Theorem cursor_kept_without_trailer
  (run : World) (s : Feed) (c out : string) :
  _backend s = Some journal -> _journalctl s <> None ->
  _cursor s = Some c -> c <> "" ->
  run (journal_argv s) = Some out ->
  Forall (fun ln => PyStr.startswith ln cursor_prefix = false)
         (PyStr.splitlines out) ->
  let o := poll run s in
  let ls := _filter_journal_lines (PyStr.splitlines out) in
  _cursor (feed o) = Some c /\ reset o = false /\ lines o = ls /\
  _buffer (feed o) = Deque.extend (limit s) (_buffer s) ls.
Proof.
  intros Hb Hj Hc Hne Hrun Hno o ls.
  assert (Htruthy : PyStr.truthy (_cursor s) = true).
  { rewrite Hc. destruct c; [congruence | reflexivity]. }
  subst o. rewrite (poll_journal_cursor run s out Hb Hj Htruthy Hrun).
  cbv zeta. rewrite (no_trailer_no_cursor _ Hno).
  cbn [PyStr.truthy]. fold ls.
  destruct (negb (List.length ls =? 0)); feed_simpl; repeat split;
    exact Hc.
Qed.

Lemma cursor_kept_without_trailer_witness :
  let s := mkFeed 3 ["k1"] (Some journal) (Some "/bin/journalctl") None
                  (Some "ABC") (Some "k1") None in
  let run : World := fun _ => Some (PyStr.unlines ["-- No entries --"]) in
  let o := poll run s in
  _cursor (feed o) = Some "ABC" /\ reset o = false /\ lines o = [] /\
  _buffer (feed o) = ["k1"].
Proof.
  intros s run o.
  assert (Hj : _journalctl s <> None) by discriminate.
  assert (Hne : "ABC" <> "") by discriminate.
  assert (Hno : Forall (fun ln => PyStr.startswith ln cursor_prefix = false)
                  (PyStr.splitlines (PyStr.unlines ["-- No entries --"]))).
  { repeat constructor. }
  destruct (cursor_kept_without_trailer run s "ABC"
              (PyStr.unlines ["-- No entries --"])
              eq_refl Hj eq_refl Hne eq_refl Hno) as (Hc & Hr & Hl & Hbuf).
  split; [exact Hc |]. split; [exact Hr |]. split; [exact Hl | exact Hbuf].
Defined.

(** C8 as stated fails: with a cursor and an output that carries entries
    but no trailer, the poll reports those entries, not zero lines. *)
Lemma cursor_kept_counterexample :
  let run1 : World :=
    fun _ => Some (PyStr.unlines ["k1"; "k2"; "-- cursor: ABC"]) in
  let run2 : World := fun _ => Some (PyStr.unlines ["k3"]) in
  let s := feed (poll run1 (__init__ 120 (Some "/bin/journalctl") None)) in
  let o := poll run2 s in
  _backend s = Some journal /\ _cursor s = Some "ABC" /\
  run2 (journal_argv s) = Some (PyStr.unlines ["k3"]) /\
  _extract_cursor (PyStr.splitlines (PyStr.unlines ["k3"])) = None /\
  _cursor (feed o) = Some "ABC" /\
  lines o = ["k3"] /\ lines o <> [].
Proof.
  cbv zeta. repeat split; try reflexivity. vm_compute. discriminate.
Qed.

(** ** Reading back the text a tool prints *)

Section TextFacts.

Lemma str_app_nil_r (s : string) : (s ++ "")%string = s.
Proof. induction s as [| c s IH]; cbn; [reflexivity | rewrite IH; reflexivity]. Qed.

Lemma str_app_assoc (a b c : string) :
  ((a ++ b) ++ c)%string = (a ++ (b ++ c))%string.
Proof. induction a as [| x a IH]; cbn; [reflexivity | rewrite IH; reflexivity]. Qed.

Lemma splitlines_from_line (l cur rest : string) :
  PyStr.no_linebreak l = true ->
  PyStr.splitlines_from cur (l ++ String PyStr.LF rest)
  = (cur ++ l)%string :: PyStr.splitlines_from "" rest.
Proof.
  revert cur. induction l as [| c l IH]; intros cur Hl.
  - rewrite str_app_nil_r. cbn [String.append PyStr.splitlines_from].
    change (PyStr.is_linebreak PyStr.LF) with true. cbv beta iota.
    change (Ascii.eqb PyStr.LF PyStr.CR) with false. cbn [andb].
    destruct rest; reflexivity.
  - cbn [PyStr.no_linebreak] in Hl. apply andb_true_iff in Hl.
    destruct Hl as [Hc Hl]. apply negb_true_iff in Hc.
    cbn [String.append PyStr.splitlines_from]. rewrite Hc.
    rewrite IH by exact Hl. rewrite str_app_assoc. reflexivity.
Qed.

(** Splitting the printed text gives the lines back. *)
Lemma splitlines_unlines (ls : list string) :
  Forall (fun l => PyStr.no_linebreak l = true) ls ->
  PyStr.splitlines (PyStr.unlines ls) = ls.
Proof.
  unfold PyStr.splitlines.
  induction 1 as [| l ls Hl _ IH]; [reflexivity |].
  cbn [PyStr.unlines]. rewrite splitlines_from_line by exact Hl.
  cbn [String.append]. rewrite IH. reflexivity.
Qed.

Lemma entry_line_spec (l : string) :
  entry_line l = true ->
  PyStr.no_linebreak l = true /\ PyStr.rstrip l = l /\
  PyStr.is_empty l = false /\ String.eqb l no_entries = false /\
  PyStr.startswith l cursor_prefix = false.
Proof.
  unfold entry_line. rewrite !andb_true_iff, !negb_true_iff.
  intros [[[[H1 H2] H3] H4] H5]. apply String.eqb_eq in H2.
  repeat split; assumption.
Qed.

Lemma filter_entry_lines (ls rest : list string) :
  Forall (fun l => entry_line l = true) ls ->
  _filter_journal_lines (ls ++ rest) = ls ++ _filter_journal_lines rest.
Proof.
  induction 1 as [| l ls Hl _ IH]; [reflexivity |].
  apply entry_line_spec in Hl. destruct Hl as (_ & Hr & He & Hn & Hp).
  cbn [app _filter_journal_lines]. rewrite Hr, He, Hn, Hp, IH.
  reflexivity.
Qed.

Lemma filter_kept (raw : list string) :
  Forall kept_line (_filter_journal_lines raw).
Proof.
  induction raw as [| ln raw IH]; [constructor |].
  cbn [_filter_journal_lines].
  destruct (PyStr.is_empty (PyStr.rstrip ln)) eqn:He; [exact IH |].
  destruct (String.eqb_spec (PyStr.rstrip ln) no_entries) as [| Hn];
    [exact IH |].
  destruct (PyStr.startswith (PyStr.rstrip ln) cursor_prefix) eqn:Hp;
    [exact IH |].
  constructor; [| exact IH]. repeat split; try assumption.
  intros Heq. rewrite Heq in He. discriminate He.
Qed.

Lemma rstrip_empty_lstrip (s : string) :
  PyStr.rstrip s = "" -> PyStr.lstrip s = "".
Proof.
  induction s as [| c s IH]; [reflexivity |].
  cbn [PyStr.rstrip PyStr.lstrip].
  destruct (PyStr.is_empty (PyStr.rstrip s)) eqn:He;
    destruct (PyStr.isspace c) eqn:Hc; cbn [andb]; try discriminate.
  intros _. apply IH. destruct (PyStr.rstrip s); [reflexivity | discriminate].
Qed.

(** The window of the dmesg backend holds no blank line. *)
Lemma dmesg_lines_nonblank (text : string) :
  Forall (fun l => l <> "") (dmesg_lines text).
Proof.
  unfold dmesg_lines. apply Forall_map, Forall_forall.
  intros ln Hin Hr. apply filter_In in Hin. destruct Hin as [_ Hne].
  unfold PyStr.strip in Hne.
  rewrite (rstrip_empty_lstrip ln Hr) in Hne. discriminate Hne.
Qed.

Lemma Forall_skipn_keep {A} (P : A -> Prop) (k : nat) (l : list A) :
  Forall P l -> Forall P (skipn k l).
Proof.
  intros H. rewrite <- (firstn_skipn k l) in H.
  apply Forall_app in H. tauto.
Qed.

Lemma Forall_last_n {A} (P : A -> Prop) (n : nat) (l : list A) :
  Forall P l -> Forall P (PyList.last_n n l).
Proof.
  intros H. unfold PyList.last_n.
  destruct (n =? 0); [exact H | apply Forall_skipn_keep, H].
Qed.

Lemma Forall_refill (P : string -> Prop) (s : Feed) (ls : list string) :
  Forall P ls -> Forall P (_buffer (refill ls s)).
Proof.
  intros H. cbn [refill set_buffer _buffer].
  rewrite extend_skipn by (cbn; lia).
  apply Forall_skipn_keep. cbn [app]. apply Forall_last_n, H.
Qed.

End TextFacts.

(** Every line a successful journal fetch returns has passed the filter. *)
Lemma journal_lines_kept (run : World) (s : Feed) (out : string) :
  _backend s = Some journal -> _journalctl s <> None ->
  run (journal_argv s) = Some out ->
  Forall kept_line (lines (poll run s)).
Proof.
  intros Hb Hj Hrun.
  unfold poll, select_backend. rewrite Hb. cbv beta iota. rewrite Hb.
  destruct (_journalctl s) as [tj |]; [| congruence].
  assert (Hgoal : Forall kept_line (lines (_poll_journalctl run s))).
  { unfold _poll_journalctl. rewrite Hrun. cbv zeta.
    pose proof (filter_kept (PyStr.splitlines out)) as Hk.
    repeat break_match; feed_simpl;
      try exact Hk;
      try (apply Forall_refill; exact Hk);
      apply Forall_skipn_keep; exact Hk. }
  destruct (negb _ || _); feed_simpl; [exact Hgoal | constructor].
Qed.

(** ** The initial fill from the journal *)

Lemma poll_journal_initial (run : World) (s0 s : Feed) (out : string) :
  select_backend s0 = Some s ->
  _backend s = Some journal -> _journalctl s <> None ->
  PyStr.truthy (_cursor s) = false -> _buffer s = [] ->
  run (journal_argv s) = Some out ->
  let raw := PyStr.splitlines out in
  let c := _extract_cursor raw in
  let s1 := if PyStr.truthy c then set_cursor c s else s in
  let s2 := journal_reset (_filter_journal_lines raw) s1 in
  poll run s0 = mkOutcome (snapshot s2) true s2 [journal_argv s].
Proof.
  intros Hsel Hb Hj Hc Hbuf Hrun raw c s1 s2.
  unfold poll. rewrite Hsel, Hb.
  destruct (_journalctl s) as [tj |]; [| congruence].
  unfold _poll_journalctl, journal_reset_required.
  rewrite Hrun, Hc, Hbuf. cbn [List.length Nat.eqb]. cbv beta iota zeta.
  fold raw. fold c. fold s1. fold s2. cbn [reset lines feed calls].
  rewrite orb_true_r. reflexivity.
Qed.

Lemma extract_cursor_trailer (ls : list string) (tr : string) :
  PyStr.startswith tr cursor_prefix = true ->
  _extract_cursor (ls ++ [tr]) = extract_cursor_scan [tr].
Proof.
  intros Htr. unfold _extract_cursor. rewrite rev_app_distr.
  cbn [rev app extract_cursor_scan]. rewrite Htr. reflexivity.
Qed.

Lemma last_n_all (n : nat) (l : list string) :
  List.length l <= n -> PyList.last_n n l = l.
Proof.
  intros Hl. unfold PyList.last_n.
  destruct (n =? 0); [reflexivity |].
  replace (List.length l - n) with 0 by lia. reflexivity.
Qed.

Lemma entry_lines_text (ls : list string) (tr : string) :
  Forall (fun l => entry_line l = true) ls ->
  PyStr.no_linebreak tr = true ->
  PyStr.splitlines (PyStr.unlines (ls ++ [tr])) = ls ++ [tr].
Proof.
  intros Hls Htr. apply splitlines_unlines.
  apply Forall_app. split.
  - eapply Forall_impl; [| exact Hls].
    intros l Hl. apply entry_line_spec in Hl. tauto.
  - constructor; [exact Htr | constructor].
Qed.

(** C5, scenario A.  A feed built with the journal tool present and room
    for five lines: the first poll, whose output is five entry lines and
    the trailer [-- cursor: ABC], returns those five lines with [True] and
    leaves the cursor [ABC]; the second poll, whose output is two entry
    lines and the trailer [-- cursor: XYZ], returns those two lines with
    [False], is made with [--after-cursor ABC] and leaves the cursor
    [XYZ].  No line returned by a poll whose journal fetch succeeds is
    empty, the sentinel or a trailer. *)
Theorem scenario_A
  (lim : Z) (tj : string) (wd : option string) (ls ns : list string)
  (run1 run2 : World) :
  (5 <= lim)%Z ->
  List.length ls = 5 -> Forall (fun l => entry_line l = true) ls ->
  List.length ns = 2 -> Forall (fun l => entry_line l = true) ns ->
  let s0 := __init__ lim (Some tj) wd in
  let o1 := poll run1 s0 in
  let o2 := poll run2 (feed o1) in
  run1 (journal_argv (set_backend (Some journal) s0))
  = Some (PyStr.unlines (ls ++ ["-- cursor: ABC"])) ->
  run2 (journal_argv (feed o1))
  = Some (PyStr.unlines (ns ++ ["-- cursor: XYZ"])) ->
  (lines o1 = ls /\ reset o1 = true /\ _cursor (feed o1) = Some "ABC") /\
  skipn 7 (journal_argv (feed o1)) = ["--after-cursor"; "ABC"] /\
  (lines o2 = ns /\ reset o2 = false /\ _cursor (feed o2) = Some "XYZ") /\
  (forall (run : World) (s : Feed) (out : string),
      _backend s = Some journal -> _journalctl s <> None ->
      run (journal_argv s) = Some out ->
      Forall kept_line (lines (poll run s))).
Proof.
  intros Hlim Hlen1 Hls Hlen2 Hns s0 o1 o2 Hrun1 Hrun2.
  set (s := set_backend (Some journal) s0) in *.
  assert (Hj : _journalctl s <> None) by discriminate.
  assert (Ho1 : o1 = poll run1 s0) by reflexivity.
  rewrite (poll_journal_initial run1 s0 s _ eq_refl eq_refl Hj
             eq_refl eq_refl Hrun1) in Ho1.
  cbv zeta in Ho1.
  rewrite (entry_lines_text ls "-- cursor: ABC" Hls eq_refl) in Ho1.
  rewrite (extract_cursor_trailer ls "-- cursor: ABC" eq_refl) in Ho1.
  rewrite (filter_entry_lines ls _ Hls) in Ho1.
  change (extract_cursor_scan ["-- cursor: ABC"]) with (Some "ABC") in Ho1.
  change (_filter_journal_lines ["-- cursor: ABC"]) with (@nil string) in Ho1.
  rewrite app_nil_r in Ho1. cbn [PyStr.truthy PyStr.is_empty negb] in Ho1.
  assert (HL : 5 <= limit s0).
  { unfold s0. cbn [__init__ limit]. lia. }
  assert (Hbuf1 : _buffer (feed o1) = ls).
  { rewrite Ho1. feed_simpl. change (limit s) with (limit s0).
    rewrite extend_nil_last_n by lia. apply last_n_all. lia. }
  assert (Hc1 : _cursor (feed o1) = Some "ABC") by (rewrite Ho1; reflexivity).
  assert (Hb1 : _backend (feed o1) = Some journal)
    by (rewrite Ho1; reflexivity).
  assert (Hj1 : _journalctl (feed o1) <> None)
    by (rewrite Ho1; discriminate).
  assert (Hl1 : lines o1 = ls).
  { rewrite Ho1. cbn [lines snapshot]. rewrite Ho1 in Hbuf1. exact Hbuf1. }
  assert (Hr1 : reset o1 = true) by (rewrite Ho1; reflexivity).
  assert (Ht1 : PyStr.truthy (_cursor (feed o1)) = true)
    by (rewrite Hc1; reflexivity).
  assert (Ho2 : o2 = poll run2 (feed o1)) by reflexivity.
  rewrite (poll_journal_cursor run2 (feed o1) _ Hb1 Hj1 Ht1 Hrun2) in Ho2.
  cbv zeta in Ho2.
  rewrite (entry_lines_text ns "-- cursor: XYZ" Hns eq_refl) in Ho2.
  rewrite (extract_cursor_trailer ns "-- cursor: XYZ" eq_refl) in Ho2.
  rewrite (filter_entry_lines ns _ Hns) in Ho2.
  change (extract_cursor_scan ["-- cursor: XYZ"]) with (Some "XYZ") in Ho2.
  change (_filter_journal_lines ["-- cursor: XYZ"]) with (@nil string) in Ho2.
  rewrite app_nil_r in Ho2. cbn [PyStr.truthy PyStr.is_empty negb] in Ho2.
  split; [repeat split; assumption |].
  split.
  { unfold journal_argv. rewrite Ht1, Hc1.
    destruct (PyStr.truthy (_journalctl (feed o1))); reflexivity. }
  split.
  - rewrite Ho2. destruct (negb (List.length ns =? 0)); repeat split.
  - intros run s' out Hb Hjs Hrun. eapply journal_lines_kept; eassumption.
Qed.

Lemma scenario_A_witness :
  let ls := ["2024-01-01T00:00:01 host kernel: e1";
             "2024-01-01T00:00:02 host kernel: e2";
             "2024-01-01T00:00:03 host kernel: e3";
             "2024-01-01T00:00:04 host kernel: e4";
             "2024-01-01T00:00:05 host kernel: e5"] in
  let ns := ["2024-01-01T00:00:06 host kernel: e6";
             "2024-01-01T00:00:07 host kernel: e7"] in
  let run1 : World := fun _ => Some (PyStr.unlines (ls ++ ["-- cursor: ABC"])) in
  let run2 : World := fun _ => Some (PyStr.unlines (ns ++ ["-- cursor: XYZ"])) in
  let s0 := __init__ 120 (Some "/usr/bin/journalctl") None in
  let o1 := poll run1 s0 in
  let o2 := poll run2 (feed o1) in
  (lines o1 = ls /\ reset o1 = true /\ _cursor (feed o1) = Some "ABC") /\
  (lines o2 = ns /\ reset o2 = false /\ _cursor (feed o2) = Some "XYZ").
Proof.
  intros ls ns run1 run2 s0 o1 o2.
  assert (Hlim : (5 <= 120)%Z) by lia.
  assert (Hls : Forall (fun l => entry_line l = true) ls)
    by (repeat constructor).
  assert (Hns : Forall (fun l => entry_line l = true) ns)
    by (repeat constructor).
  destruct (scenario_A 120 "/usr/bin/journalctl" None ls ns run1 run2
              Hlim eq_refl Hls eq_refl Hns eq_refl eq_refl)
    as (H1 & _ & H2 & _).
  split; [exact H1 | exact H2].
Defined.

(** ** Quiescence *)

Lemma last_opt_some_length (l : list string) (m : string) :
  PyList.last_opt l = Some m -> 1 <= List.length l.
Proof. destruct l; [discriminate | cbn; lia]. Qed.

Lemma skipn_past_last (l : list string) (m : string) :
  PyList.last_opt l = Some m -> skipn (S (List.length l - 1)) l = [].
Proof.
  intros H. apply last_opt_some_length in H.
  apply skipn_all2. lia.
Qed.

Lemma feed_eta (s : Feed) :
  mkFeed (limit s) (_buffer s) (_backend s) (_journalctl s) (_dmesg s)
         (_cursor s) (_journal_tail s) (_dmesg_tail s) = s.
Proof. destruct s; reflexivity. Qed.

(** On a settled feed a poll returns [([], False)] and changes nothing. *)
Lemma settled_poll (run : World) (s : Feed) :
  settled run s ->
  lines (poll run s) = [] /\ reset (poll run s) = false /\
  feed (poll run s) = s.
Proof.
  intros (m & Hlast & Hcase).
  destruct (_backend s) as [[|] |] eqn:Hb; [| | destruct Hcase].
  - destruct Hcase as (out & Hj & Hc & Hrun & Hxc & Htail & Hwin).
    unfold poll, select_backend. rewrite Hb. cbv beta iota. rewrite Hb.
    destruct (_journalctl s) as [tj |] eqn:Htj; [| congruence].
    unfold _poll_journalctl, journal_reset_required.
    rewrite Hrun, Hc, Hxc. cbv beta iota zeta. rewrite Hc, Htail.
    destruct (_buffer s) as [| b bs] eqn:Hbuf; [discriminate Hlast |].
    cbn [List.length Nat.eqb PyStr.is_not_none negb].
    rewrite (rindex_last _ _ Hwin), (skipn_past_last _ _ Hwin).
    feed_simpl. cbn [Deque.extend fold_left List.length Nat.eqb negb orb].
    feed_simpl. repeat split.
    rewrite Hbuf, Hlast, <- Htail.
    unfold set_journal_tail, append_all, set_buffer.
    cbn [Deque.extend fold_left limit _buffer _backend _journalctl _dmesg
         _cursor _journal_tail _dmesg_tail].
    apply feed_eta.
  - destruct Hcase as (tool & text & tried & Hd & Hfs & Htail & Hwin).
    unfold poll, select_backend. rewrite Hb. cbv beta iota.
    rewrite Hb, Hd.
    assert (Hgoal :
        lines (_poll_dmesg run s false) = [] /\
        reset (_poll_dmesg run s false) = false /\
        feed (_poll_dmesg run s false) = s).
    { unfold _poll_dmesg. rewrite Hd, Hfs, Htail.
      cbn [orb PyStr.is_not_none negb].
      rewrite (rindex_last _ _ Hwin), (skipn_past_last _ _ Hwin).
      feed_simpl. cbn [Deque.extend fold_left]. repeat split.
      rewrite Hlast, <- Htail.
      unfold set_dmesg_tail, append_all, set_buffer.
      cbn [Deque.extend fold_left limit _buffer _backend _journalctl _dmesg
           _cursor _journal_tail _dmesg_tail].
      apply feed_eta. }
    destruct (_journalctl s); exact Hgoal.
Qed.

Lemma nonempty_last_opt (l : list string) :
  l <> [] -> exists m, PyList.last_opt l = Some m.
Proof.
  intros Hne. destruct (PyList.last_opt l) as [m |] eqn:H; [eauto |].
  exfalso. apply Hne. rewrite last_opt_nth in H.
  apply nth_error_None in H. destruct l; [reflexivity | cbn in H; lia].
Qed.

Lemma dmesg_reset_settled
  (run : World) (s : Feed) (tool text : string) (tried : list Argv) :
  1 <= limit s ->
  _backend s = Some dmesg -> _dmesg s = Some tool ->
  first_success run (dmesg_candidates tool) = (Some text, tried) ->
  _buffer (dmesg_reset (dmesg_lines text) s) <> [] ->
  settled run (dmesg_reset (dmesg_lines text) s).
Proof.
  intros Hpos Hb Hd Hfs Hne.
  destruct (nonempty_last_opt _ Hne) as [m Hm].
  exists m. split; [exact Hm |].
  revert Hm. feed_simpl. rewrite Hb.
  rewrite extend_nil_last_n by exact Hpos. intros Hm.
  exists tool, text, tried. repeat split; try assumption.
  rewrite <- Hm. symmetry. apply last_opt_last_n. exact Hpos.
Qed.

Lemma journal_reset_settled (run : World) (s : Feed) (out : string) :
  1 <= limit s ->
  _backend s = Some journal -> _journalctl s <> None ->
  PyStr.truthy (_cursor s) = false ->
  run (journal_argv s) = Some out ->
  PyStr.truthy (_extract_cursor (PyStr.splitlines out)) = false ->
  let ls := _filter_journal_lines (PyStr.splitlines out) in
  _buffer (journal_reset ls s) <> [] ->
  settled run (journal_reset ls s).
Proof.
  intros Hpos Hb Hj Hc Hrun Hxc ls Hne.
  destruct (nonempty_last_opt _ Hne) as [m Hm].
  exists m. split; [exact Hm |].
  assert (Hargv : journal_argv (journal_reset ls s) = journal_argv s)
    by reflexivity.
  rewrite Hargv. revert Hm. feed_simpl. rewrite Hb.
  rewrite extend_nil_last_n by exact Hpos. intros Hm.
  exists out. repeat split; try assumption.
  fold ls. rewrite <- Hm. symmetry. apply last_opt_last_n. exact Hpos.
Qed.

Lemma poll_dmesg_reset_settled (run : World) (s : Feed) (force : bool) :
  1 <= limit s -> _backend s = Some dmesg ->
  let o := _poll_dmesg run s force in
  reset o = true -> lines o <> [] -> settled run (feed o).
Proof.
  intros Hpos Hb. unfold _poll_dmesg.
  destruct (_dmesg s) as [tool |] eqn:Hd;
    [| cbn [lines]; intros _ H; exfalso; apply H; reflexivity].
  destruct (first_success run (dmesg_candidates tool))
    as [[text |] tried] eqn:Hfs;
    [| cbn [lines]; intros _ H; exfalso; apply H; reflexivity].
  repeat break_match; cbn [lines reset feed snapshot];
    intros Hr Hne; try discriminate Hr;
    eapply dmesg_reset_settled; eassumption.
Qed.

Lemma poll_journalctl_reset_settled (run : World) (s : Feed) :
  1 <= limit s -> _backend s = Some journal -> _journalctl s <> None ->
  let o := _poll_journalctl run s in
  reset o = true -> lines o <> [] ->
  (_backend (feed o) = Some journal ->
   PyStr.truthy (_cursor (feed o)) = false) ->
  settled run (feed o).
Proof.
  intros Hpos Hb Hj. unfold _poll_journalctl, journal_reset_required.
  destruct (run (journal_argv s)) as [out |] eqn:Hrun.
  - cbv zeta.
    destruct (PyStr.truthy (_extract_cursor (PyStr.splitlines out)))
      eqn:Hxc.
    + (* a cursor was read: the feed ends with a cursor in use *)
      repeat break_match; cbn [lines reset feed snapshot];
        intros Hr Hne Hc; try discriminate Hr;
        exfalso; specialize (Hc Hb); revert Hc; feed_simpl;
        rewrite Hxc; discriminate.
    + destruct (PyStr.truthy (_cursor s)) eqn:Hc0.
      * cbn [lines reset feed]. intros Hr. discriminate Hr.
      * repeat break_match; cbn [lines reset feed snapshot];
          intros Hr Hne _; try discriminate Hr;
          apply journal_reset_settled; assumption.
  - destruct (_dmesg s) as [tool |] eqn:Hd; cbn [lines reset feed].
    + intros Hr Hne _.
      apply poll_dmesg_reset_settled; [exact Hpos | reflexivity | |];
        assumption.
    + intros _ H. exfalso. apply H. reflexivity.
Qed.

(** A reset that brought lines and left no cursor in use leaves the feed
    settled with respect to the same outputs. *)
Lemma reset_settles (run : World) (s0 : Feed) :
  wf s0 ->
  reset (poll run s0) = true -> lines (poll run s0) <> [] ->
  (_backend (feed (poll run s0)) = Some journal ->
   PyStr.truthy (_cursor (feed (poll run s0))) = false) ->
  settled run (feed (poll run s0)).
Proof.
  intros [Hpos0 _]. unfold poll.
  destruct (select_backend s0) as [s |] eqn:Hsel;
    [| cbn [lines]; intros _ H; exfalso; apply H; reflexivity].
  destruct (select_backend_config s0 s Hsel) as [[Hlim _] _].
  assert (Hpos : 1 <= limit s) by lia.
  destruct (_backend s) as [[|] |] eqn:Hb;
    destruct (_journalctl s) as [tj |] eqn:Htj;
    destruct (_dmesg s) as [td |] eqn:Hd;
    cbn [lines reset feed];
    try (intros _ H; exfalso; apply H; reflexivity);
    try (intros Hr Hne _; apply poll_dmesg_reset_settled; assumption).
  all: assert (Hj : _journalctl s <> None) by congruence;
    pose proof (poll_journalctl_reset_settled run s Hpos Hb Hj) as Hset;
    cbv zeta in Hset;
    destruct (negb _ || _); cbn [lines reset feed];
    [ exact Hset | intros H; discriminate H ].
Qed.

Lemma poll_journal_has_tool (run : World) (s0 : Feed) :
  _backend (feed (poll run s0)) = Some journal ->
  _journalctl (feed (poll run s0)) <> None.
Proof.
  pose proof (poll_config run s0) as (_ & Hcfg & _).
  rewrite Hcfg. clear Hcfg. unfold poll.
  destruct (select_backend s0) as [s |] eqn:Hsel.
  - destruct (select_backend_config s0 s Hsel) as [(_ & Hjc & _) _].
    rewrite <- Hjc.
    destruct (_backend s) as [[|] |] eqn:Hb;
      destruct (_journalctl s) as [tj |] eqn:Htj;
      destruct (_dmesg s) as [td |] eqn:Hd;
      cbn [feed]; feed_simpl;
      try discriminate;
      try (rewrite poll_dmesg_backend, Hb; discriminate).
  - unfold select_backend in Hsel. cbn [feed].
    destruct (_backend s0); [| discriminate].
    discriminate Hsel.
Qed.

Lemma poll_journal_idle (run : World) (s : Feed) :
  _backend s = Some journal -> _journalctl s <> None ->
  PyStr.truthy (_cursor s) = true ->
  journal_idle run s ->
  let o := poll run s in
  lines o = [] /\ reset o = false /\
  _backend (feed o) = Some journal /\ _journalctl (feed o) <> None /\
  PyStr.truthy (_cursor (feed o)) = true /\ _buffer (feed o) = _buffer s.
Proof.
  intros Hb Hj Hc (out & Hrun & Hidle) o. subst o.
  rewrite (poll_journal_cursor run s out Hb Hj Hc Hrun).
  cbv zeta. rewrite Hidle. cbn [List.length Nat.eqb negb].
  feed_simpl. cbn [Deque.extend fold_left].
  destruct (PyStr.truthy (_extract_cursor (PyStr.splitlines out))) eqn:Hxc;
    feed_simpl; repeat split; assumption.
Qed.

(** C7, as the code has it.  After a reset on a selected backend that
    recorded an anchor, polls of a source that emits nothing new return
    [([], False)] twice in a row: with a tail marker (the reset brought at
    least one line and the journal cursor is not in use) when the commands
    print what they printed before; with the journal cursor in use when the
    journal commands print no entry line. *)
Theorem quiescence (run : World) (s0 : Feed) :
  wf s0 ->
  reset (poll run s0) = true ->
  let s1 := feed (poll run s0) in
  (lines (poll run s0) <> [] ->
   (_backend s1 = Some journal -> PyStr.truthy (_cursor s1) = false) ->
   let o2 := poll run s1 in
   let o3 := poll run (feed o2) in
   (lines o2 = [] /\ reset o2 = false) /\
   (lines o3 = [] /\ reset o3 = false))
  /\
  (_backend s1 = Some journal -> PyStr.truthy (_cursor s1) = true ->
   forall run2 run3 : World,
     journal_idle run2 s1 ->
     journal_idle run3 (feed (poll run2 s1)) ->
     let o2 := poll run2 s1 in
     let o3 := poll run3 (feed o2) in
     (lines o2 = [] /\ reset o2 = false) /\
     (lines o3 = [] /\ reset o3 = false)).
Proof.
  intros Hwf Hreset s1. split.
  - intros Hne Hc o2 o3.
    pose proof (reset_settles run s0 Hwf Hreset Hne Hc) as Hset.
    fold s1 in Hset.
    destruct (settled_poll run s1 Hset) as (Hl2 & Hr2 & Hf2).
    subst o3 o2. rewrite Hf2. repeat split; assumption.
  - intros Hb Hc run2 run3 Hidle2 Hidle3 o2 o3.
    assert (Hj : _journalctl s1 <> None)
      by (apply poll_journal_has_tool; exact Hb).
    destruct (poll_journal_idle run2 s1 Hb Hj Hc Hidle2)
      as (Hl2 & Hr2 & Hb2 & Hj2 & Hc2 & _).
    destruct (poll_journal_idle run3 _ Hb2 Hj2 Hc2 Hidle3)
      as (Hl3 & Hr3 & _).
    repeat split; assumption.
Qed.

Lemma quiescence_witness :
  let run : World := fun _ => Some (PyStr.unlines ["k1"; "k2"]) in
  let s0 := __init__ 120 None (Some "/bin/dmesg") in
  let s1 := feed (poll run s0) in
  let o2 := poll run s1 in
  let o3 := poll run (feed o2) in
  wf s0 /\ reset (poll run s0) = true /\ lines (poll run s0) = ["k1"; "k2"] /\
  (lines o2 = [] /\ reset o2 = false) /\
  (lines o3 = [] /\ reset o3 = false).
Proof.
  intros run s0 s1 o2 o3.
  assert (Hwf : wf s0) by apply init_wf.
  split; [exact Hwf |]. split; [reflexivity |]. split; [reflexivity |].
  destruct (quiescence run s0 Hwf eq_refl) as [Htail _].
  apply Htail; [discriminate | discriminate].
Defined.

(** C7 as stated fails: a dmesg source that prints nothing leaves no tail
    marker, so every poll on the unchanged source is a reset again. *)
Lemma quiescence_counterexample :
  let run : World := fun _ => Some "" in
  let s0 := __init__ 120 None (Some "/bin/dmesg") in
  let o1 := poll run s0 in
  let o2 := poll run (feed o1) in
  let o3 := poll run (feed o2) in
  reset o1 = true /\ _backend (feed o1) = Some dmesg /\
  (lines o2, reset o2) = ([], true) /\
  (lines o3, reset o3) = ([], true) /\
  (lines o2, reset o2) <> ([], false).
Proof.
  cbv zeta. repeat split; try reflexivity. vm_compute. discriminate.
Qed.

(** * Further properties of the feed *)

(** ** Tail diff of the journal without a cursor *)

(** X1. A journal poll on a non-empty buffer, with no cursor held and none
    read from the output, diffs against the journal tail marker [M] as the
    dmesg backend does: [M] last at index [i] of the filtered window [W]
    gives [(W[i+1:], False)] with those lines appended and the marker
    moved to the newest buffered line; [M] absent gives a rebuild from the
    last [L] lines of [W], returned with [True]. *)
Theorem journal_tail_diff (run : World) (s : Feed) (out M : string) :
  wf s ->
  _backend s = Some journal -> _journalctl s <> None ->
  PyStr.truthy (_cursor s) = false ->
  _buffer s <> [] ->
  _journal_tail s = Some M ->
  run (journal_argv s) = Some out ->
  PyStr.truthy (_extract_cursor (PyStr.splitlines out)) = false ->
  let W := _filter_journal_lines (PyStr.splitlines out) in
  let L := limit s in
  let o := poll run s in
  (forall i : nat,
      nth_error W i = Some M -> ~ In M (skipn (S i) W) ->
      lines o = skipn (S i) W /\ reset o = false /\
      _buffer (feed o) = PyList.last_n L (_buffer s ++ skipn (S i) W) /\
      _journal_tail (feed o) = PyList.last_opt (_buffer (feed o)))
  /\
  (~ In M W ->
      lines o = PyList.last_n L W /\ reset o = true /\
      _buffer (feed o) = PyList.last_n L W /\
      _journal_tail (feed o) = PyList.last_opt (PyList.last_n L W)).
Proof.
  intros [Hpos Hlen] Hb Hj Hc Hbuf Htail Hrun Hxc W L o.
  subst o. unfold poll, select_backend. rewrite Hb. cbv beta iota.
  rewrite Hb.
  destruct (_journalctl s) as [tj |] eqn:Htj; [| congruence].
  unfold _poll_journalctl, journal_reset_required.
  rewrite Hrun, Hc, Hxc. cbv beta iota zeta. rewrite Hc, Htail.
  fold W.
  assert (Hnz : (List.length (_buffer s) =? 0) = false).
  { apply Nat.eqb_neq. destruct (_buffer s); [congruence | discriminate]. }
  rewrite Hnz. cbn [PyStr.is_not_none negb]. split.
  - intros i Hnth Hafter.
    rewrite (rindex_found W M i Hnth Hafter).
    cbn [lines reset feed]. rewrite orb_false_r.
    destruct (skipn (S i) W) as [| x xs] eqn:Hsk;
      cbn [List.length Nat.eqb negb]; feed_simpl;
      (repeat split; try reflexivity);
      apply extend_last_n; assumption.
  - intros Habsent.
    rewrite (rindex_absent W M Habsent).
    cbn [lines reset feed snapshot]. rewrite orb_true_r.
    feed_simpl. fold L. rewrite extend_nil_last_n by exact Hpos.
    repeat split; reflexivity.
Qed.

Lemma journal_tail_diff_witness :
  let s := mkFeed 3 ["a"; "b"] (Some journal) (Some "/bin/journalctl") None
                  None (Some "b") None in
  let run : World := fun _ => Some (PyStr.unlines ["a"; "b"; "c"; "d"]) in
  let o := poll run s in
  lines o = ["c"; "d"] /\ reset o = false /\
  _buffer (feed o) = ["b"; "c"; "d"] /\ _journal_tail (feed o) = Some "d".
Proof.
  intros s run o.
  assert (Hwf : wf s) by (split; cbn; lia).
  assert (Hj : _journalctl s <> None) by discriminate.
  assert (Hbuf : _buffer s <> []) by discriminate.
  destruct (journal_tail_diff run s (PyStr.unlines ["a"; "b"; "c"; "d"]) "b"
              Hwf eq_refl Hj eq_refl Hbuf eq_refl eq_refl eq_refl)
    as [Hfound _].
  destruct (Hfound 1 eq_refl) as (Hl & Hr & Hb & Ht).
  - vm_compute. intros [H | [H | []]]; discriminate H.
  - subst o. rewrite Hl, Hr, Ht, Hb. repeat split.
Defined.

(** ** A feed without tools *)

(** X2. With neither tool found at construction, every poll of every run
    returns [([], True)], runs no command and leaves the feed as it was
    built. *)
Theorem no_tools_always_empty_reset
  (lim : Z) (runs : list World) (run : World) :
  let s0 := __init__ lim None None in
  feed_after runs s0 = s0 /\
  poll run (feed_after runs s0) = mkOutcome [] true s0 [].
Proof.
  cbv zeta.
  assert (Hstay : feed_after runs (__init__ lim None None)
                  = __init__ lim None None).
  { induction runs as [| r runs IH]; [reflexivity |].
    cbn [feed_after]. exact IH. }
  rewrite Hstay. split; reflexivity.
Qed.

(** ** The first poll *)

Lemma poll_dmesg_unmarked (run : World) (s : Feed) (force : bool) :
  _dmesg_tail s = None -> reset (_poll_dmesg run s force) = true.
Proof.
  intros Ht. unfold _poll_dmesg. rewrite Ht.
  cbn [PyStr.is_not_none negb]. rewrite orb_true_r.
  repeat break_match; reflexivity.
Qed.

Lemma poll_journalctl_empty (run : World) (s : Feed) :
  PyStr.truthy (_cursor s) = false -> _buffer s = [] ->
  reset (_poll_journalctl run s) = true.
Proof.
  intros Hc Hbuf. unfold _poll_journalctl, journal_reset_required.
  rewrite Hc, Hbuf. cbn [List.length Nat.eqb].
  destruct (run (journal_argv s)); [reflexivity |].
  destruct (_dmesg s); [apply poll_dmesg_forced | reflexivity].
Qed.

Lemma first_poll_reset
  (lim : Z) (wj wd : option string) (run : World) :
  reset (poll run (__init__ lim wj wd)) = true.
Proof.
  unfold poll, select_backend.
  destruct wj as [tj |]; [| destruct wd as [td |]];
    cbn [__init__ _backend _journalctl _dmesg set_backend].
  - rewrite poll_journalctl_empty by reflexivity.
    rewrite orb_true_r. reflexivity.
  - apply poll_dmesg_unmarked. reflexivity.
  - reflexivity.
Qed.

Lemma first_poll_length
  (lim : Z) (wj wd : option string) (run : World) :
  List.length (snapshot (feed (poll run (__init__ lim wj wd))))
  <= Z.to_nat (Z.max 1 lim).
Proof.
  pose proof (poll_wf run _ (init_wf lim wj wd)) as [_ Hlen].
  destruct (poll_config run (__init__ lim wj wd)) as [Hlim _].
  unfold snapshot. rewrite Hlim in Hlen. exact Hlen.
Qed.

(** X3. The first poll of a newly built feed always asks for a reset,
    whatever the tools do, and hands back the whole buffer, which holds at
    most [limit] lines. *)
Theorem first_poll_resets
  (lim : Z) (wj wd : option string) (run : World) :
  let o := poll run (__init__ lim wj wd) in
  reset o = true /\ lines o = snapshot (feed o) /\
  List.length (lines o) <= Z.to_nat (Z.max 1 lim).
Proof.
  intros o.
  assert (Hreset : reset o = true) by apply first_poll_reset.
  assert (Hlines : lines o = snapshot (feed o)).
  { apply (reset_lines_are_snapshot [] lim wj wd run). exact Hreset. }
  split; [exact Hreset |]. split; [exact Hlines |].
  rewrite Hlines. apply first_poll_length.
Qed.

(** ** Runs of polls without reset *)

Lemma extend_extend (n : nat) (d xs ys : list string) :
  Deque.extend n (Deque.extend n d xs) ys = Deque.extend n d (xs ++ ys).
Proof. unfold Deque.extend. symmetry. apply fold_left_app. Qed.

Lemma non_reset_run_extend (runs : list World) (s : Feed) :
  Forall (fun o => reset o = false) (poll_many runs s) ->
  _buffer (feed_after runs s)
  = Deque.extend (limit s) (_buffer s)
                 (List.concat (map lines (poll_many runs s))).
Proof.
  revert s. induction runs as [| run runs IH]; intros s Hall.
  - reflexivity.
  - cbn [poll_many feed_after map List.concat] in *.
    inversion Hall as [| o os Hr Hrest]; subst.
    rewrite (IH _ Hrest). rewrite (poll_append run s Hr).
    destruct (poll_config run s) as [Hlim _]. rewrite Hlim.
    apply extend_extend.
Qed.

(** X4. Over a run of polls none of which asks for a reset, the returned
    lines taken together are exactly what has been added to the view: the
    final snapshot is the last [L] lines of the initial snapshot followed
    by all returned lines in order. *)
Theorem non_reset_run_appends (runs : list World) (s : Feed) :
  wf s ->
  Forall (fun o => reset o = false) (poll_many runs s) ->
  snapshot (feed_after runs s)
  = PyList.last_n (limit s)
      (snapshot s ++ List.concat (map lines (poll_many runs s))).
Proof.
  intros [Hpos Hlen] Hall. unfold snapshot.
  rewrite (non_reset_run_extend runs s Hall).
  apply extend_last_n; assumption.
Qed.

Lemma non_reset_run_appends_witness :
  let s := mkFeed 3 ["a"; "b"] (Some dmesg) None (Some "/bin/dmesg")
                  None None (Some "b") in
  let run1 : World := fun _ => Some (PyStr.unlines ["a"; "b"; "c"]) in
  let run2 : World :=
    fun _ => Some (PyStr.unlines ["a"; "b"; "c"; "d"; "e"]) in
  wf s /\
  map lines (poll_many [run1; run2] s) = [["c"]; ["d"; "e"]] /\
  snapshot (feed_after [run1; run2] s) = ["c"; "d"; "e"].
Proof.
  intros s run1 run2.
  assert (Hwf : wf s) by (split; cbn; lia).
  assert (Hall : Forall (fun o => reset o = false)
                        (poll_many [run1; run2] s))
    by (repeat constructor).
  split; [exact Hwf |]. split; [reflexivity |].
  rewrite (non_reset_run_appends [run1; run2] s Hwf Hall). reflexivity.
Defined.

(** ** Candidate commands *)

(** X5. The dmesg candidates are tried in their order and the first one
    that succeeds gives the output: the commands run are a prefix of the
    candidate list, all of them failing but the last; when none succeeds
    every candidate has been run once. *)
Theorem first_success_in_order (run : World) (cands : list Argv) :
  let r := fst (first_success run cands) in
  let tried := snd (first_success run cands) in
  exists rest : list Argv,
    cands = tried ++ rest /\
    match r with
    | Some out =>
        exists failed a,
          tried = failed ++ [a] /\ run a = Some out /\
          Forall (fun c => run c = None) failed
    | None => rest = [] /\ Forall (fun c => run c = None) tried
    end.
Proof.
  cbv zeta. induction cands as [| c cands IH]; cbn [first_success].
  - exists []. repeat split. constructor.
  - destruct (run c) as [out |] eqn:Hc.
    + cbn [fst snd]. exists cands. split; [reflexivity |].
      exists [], c. repeat split; [exact Hc | constructor].
    + destruct (first_success run cands) as [r tried].
      cbn [fst snd] in *. destruct IH as (rest & Hcands & Hr).
      exists rest. split; [cbn [app]; congruence |].
      destruct r as [out |].
      * destruct Hr as (failed & a & Ht & Ha & Hf).
        exists (c :: failed), a. rewrite Ht.
        repeat split; [exact Ha | constructor; assumption].
      * destruct Hr as [Hrest Hf]. split; [exact Hrest |].
        constructor; assumption.
Qed.

Lemma first_success_length (run : World) (cands : list Argv) :
  List.length (snd (first_success run cands)) <= List.length cands.
Proof.
  induction cands as [| c cands IH]; cbn [first_success]; [cbn; lia |].
  destruct (run c); [cbn; lia |].
  destruct (first_success run cands). cbn [snd List.length] in *. lia.
Qed.

Lemma poll_dmesg_calls_length (run : World) (s : Feed) (force : bool) :
  List.length (calls (_poll_dmesg run s force)) <= 6.
Proof.
  unfold _poll_dmesg.
  destruct (_dmesg s) as [tool |]; [| cbn; lia].
  pose proof (first_success_length run (dmesg_candidates tool)) as Hlen.
  destruct (first_success run (dmesg_candidates tool)) as [r tried].
  cbn [snd dmesg_candidates List.length] in Hlen.
  repeat break_match; cbn [calls]; exact Hlen.
Qed.

Lemma poll_journalctl_calls (run : World) (s : Feed) :
  let o := _poll_journalctl run s in
  List.length (calls o) <= 7 /\
  hd_error (calls o) = Some (journal_argv s) /\
  (run (journal_argv s) <> None -> calls o = [journal_argv s]).
Proof.
  unfold _poll_journalctl.
  destruct (run (journal_argv s)) as [out |].
  - repeat break_match; cbn [calls List.length hd_error];
      (split; [lia |]); split; reflexivity.
  - destruct (_dmesg s); cbn [calls List.length hd_error].
    + pose proof (poll_dmesg_calls_length run
                    (set_cursor None (set_backend (Some dmesg) s)) true).
      split; [lia |]. split; [reflexivity | congruence].
    + split; [lia |]. split; [reflexivity | congruence].
Qed.

(** X6. One poll runs at most seven commands: the journal command at most
    once and first, then at most the six dmesg candidates.  When the
    journal is the selected backend and its command succeeds, that command
    is the only one run. *)
Theorem poll_command_budget (run : World) (s0 : Feed) :
  let o := poll run s0 in
  List.length (calls o) <= 7 /\
  (forall s : Feed,
      select_backend s0 = Some s ->
      _backend s = Some journal -> _journalctl s <> None ->
      hd_error (calls o) = Some (journal_argv s) /\
      ~ In (journal_argv s) (tl (calls o)) /\
      (run (journal_argv s) <> None -> calls o = [journal_argv s])).
Proof.
  intros o. subst o. unfold poll.
  destruct (select_backend s0) as [s1 |] eqn:Hsel;
    [| split; [cbn; lia | intros s H; discriminate H]].
  split.
  - destruct (_backend s1) as [[|] |]; destruct (_journalctl s1);
      destruct (_dmesg s1); cbn [calls List.length]; try lia;
      try (pose proof (poll_dmesg_calls_length run s1 false); lia).
    all: destruct (poll_journalctl_calls run s1) as (H & _);
      destruct (negb _ || _); cbn [calls]; exact H.
  - intros s Heq Hb Hj. inversion Heq; subst s1. rewrite Hb.
    destruct (_journalctl s) as [tj |] eqn:Htj; [| congruence].
    destruct (poll_journalctl_calls run s) as (_ & Hhd & Hone).
    assert (Hgoal :
        hd_error (calls (_poll_journalctl run s)) = Some (journal_argv s) /\
        ~ In (journal_argv s) (tl (calls (_poll_journalctl run s))) /\
        (run (journal_argv s) <> None ->
         calls (_poll_journalctl run s) = [journal_argv s])).
    { split; [exact Hhd |]. split; [| exact Hone].
      unfold _poll_journalctl.
      destruct (run (journal_argv s)) as [out |].
      - repeat break_match; cbn [calls tl]; intros [].
      - destruct (_dmesg s) as [td |] eqn:Hd; cbn [calls tl];
          [| intros []].
        intros Hin.
        pose proof (poll_dmesg_calls run
                      (set_cursor None (set_backend (Some dmesg) s)) true
                      td Hd) as Hcalls.
        rewrite Forall_forall in Hcalls.
        apply (journal_argv_not_dmesg s td), Hcalls, Hin. }
    destruct (negb _ || _); cbn [calls]; exact Hgoal.
Qed.

(** ** Anchors *)

Lemma poll_dmesg_tail (run : World) (s : Feed) (force : bool) :
  1 <= limit s ->
  let o := _poll_dmesg run s force in
  _dmesg_tail (feed o) = PyList.last_opt (_buffer (feed o)).
Proof.
  intros Hpos. unfold _poll_dmesg.
  repeat break_match; feed_simpl; try reflexivity;
    rewrite extend_nil_last_n by exact Hpos; reflexivity.
Qed.

Lemma poll_journalctl_dmesg_tail (run : World) (s : Feed) :
  1 <= limit s -> _backend s = Some journal ->
  let o := _poll_journalctl run s in
  _backend (feed o) = Some dmesg ->
  _dmesg_tail (feed o) = PyList.last_opt (_buffer (feed o)).
Proof.
  intros Hpos Hb. unfold _poll_journalctl.
  destruct (run (journal_argv s)) as [out |].
  - repeat break_match; feed_simpl; rewrite Hb; discriminate.
  - destruct (_dmesg s) as [td |]; cbn [feed].
    + intros _. apply poll_dmesg_tail. exact Hpos.
    + feed_simpl. rewrite Hb. discriminate.
Qed.

(** X7. After every poll that ends with dmesg selected, the dmesg tail
    marker is the newest line of the buffer, and is absent exactly when
    the buffer is empty. *)
Theorem dmesg_tail_is_newest_line (run : World) (s0 : Feed) :
  wf s0 ->
  let s := feed (poll run s0) in
  _backend s = Some dmesg ->
  _dmesg_tail s = PyList.last_opt (_buffer s) /\
  (_dmesg_tail s = None <-> _buffer s = []).
Proof.
  intros [Hpos0 _]. cbv zeta. intros Hb.
  assert (Htail : _dmesg_tail (feed (poll run s0))
                  = PyList.last_opt (_buffer (feed (poll run s0)))).
  { revert Hb. unfold poll.
    destruct (select_backend s0) as [s1 |] eqn:Hsel.
    - destruct (select_backend_config s0 s1 Hsel) as [[Hlim _] _].
      assert (Hpos : 1 <= limit s1) by lia.
      destruct (_backend s1) as [[|] |] eqn:Hb1;
        destruct (_journalctl s1) as [tj |];
        destruct (_dmesg s1) as [td |] eqn:Hd;
        cbn [feed]; feed_simpl; try discriminate;
        try (intros _; apply poll_dmesg_tail; exact Hpos).
      all: pose proof (poll_journalctl_dmesg_tail run s1 Hpos Hb1) as Hj;
        cbv zeta in Hj; destruct (negb _ || _); cbn [feed]; exact Hj.
    - cbn [feed]. unfold select_backend in Hsel.
      destruct (_backend s0); [discriminate Hsel | discriminate]. }
  split; [exact Htail |].
  destruct (_buffer (feed (poll run s0))) as [| x xs] eqn:Hbuf.
  - split; [reflexivity | intros _; exact Htail].
  - split; [| discriminate].
    intros Hnone. exfalso.
    destruct (nonempty_last_opt (x :: xs)) as [m Hm]; [discriminate |].
    congruence.
Qed.

Lemma dmesg_tail_is_newest_line_witness :
  let s0 := mkFeed 3 ["old"] (Some journal) (Some "/bin/journalctl")
                   (Some "/bin/dmesg") (Some "C") (Some "old") None in
  let run : World :=
    fun argv => match argv with
                | [_] => Some (PyStr.unlines ["k1"; "k2"])
                | _ => None
                end in
  let s := feed (poll run s0) in
  wf s0 /\ _backend s = Some dmesg /\
  _dmesg_tail s = Some "k2" /\ _buffer s = ["k1"; "k2"].
Proof.
  intros s0 run s.
  assert (Hwf : wf s0) by (split; cbn; lia).
  destruct (dmesg_tail_is_newest_line run s0 Hwf eq_refl) as [Ht _].
  split; [exact Hwf |]. split; [reflexivity |].
  split; [exact (eq_trans Ht eq_refl) | reflexivity].
Defined.

Lemma poll_dmesg_cursor (run : World) (s : Feed) (force : bool) :
  _cursor (feed (_poll_dmesg run s force)) = _cursor s.
Proof. unfold _poll_dmesg. repeat break_match; reflexivity. Qed.

Lemma poll_journalctl_cursor_ok (run : World) (s : Feed) :
  _backend s = Some journal ->
  (_cursor s = None \/ PyStr.truthy (_cursor s) = true) ->
  cursor_ok (feed (_poll_journalctl run s)).
Proof.
  intros Hb Hc. unfold _poll_journalctl, cursor_ok.
  destruct (run (journal_argv s)) as [out |].
  - cbv zeta.
    destruct (PyStr.truthy (_extract_cursor (PyStr.splitlines out)))
      eqn:Hxc;
      repeat break_match; feed_simpl.
    all: split.
    all: try (intros H; exfalso; apply H; exact Hb).
    all: try (right; exact Hxc).
    all: destruct Hc as [Hc | Hc];
      [ left; exact Hc
      | first [right; assumption | discriminate Hc | right; exact Hc] ].
  - destruct (_dmesg s); cbn [feed].
    + rewrite poll_dmesg_cursor. feed_simpl.
      split; [left; reflexivity | reflexivity].
    + feed_simpl. split; [left; reflexivity | reflexivity].
Qed.

Lemma poll_cursor_ok (run : World) (s0 : Feed) :
  cursor_ok s0 -> cursor_ok (feed (poll run s0)).
Proof.
  intros [Hshape Hnone]. unfold poll.
  destruct (select_backend s0) as [s1 |] eqn:Hsel;
    [| split; assumption].
  assert (Hc1 : _cursor s1 = _cursor s0).
  { unfold select_backend in Hsel. revert Hsel.
    repeat break_match; intros H; inversion H; reflexivity. }
  assert (Hb1 : _backend s1 <> Some journal -> _cursor s1 = None).
  { unfold select_backend in Hsel. revert Hsel.
    destruct (_backend s0) eqn:Hb0.
    - intros H; inversion H; subst. rewrite Hb0. exact Hnone.
    - intros _ _. rewrite Hc1. apply Hnone. discriminate. }
  destruct (_backend s1) as [[|] |] eqn:Hb;
    destruct (_journalctl s1) as [tj |];
    destruct (_dmesg s1) as [td |]; cbn [feed].
  all: try (unfold cursor_ok; feed_simpl;
            split; [left; reflexivity | reflexivity]).
  all: try (pose proof (poll_journalctl_cursor_ok run s1 Hb) as Hj;
            rewrite Hc1 in Hj; specialize (Hj Hshape);
            destruct (negb _ || _); cbn [feed]; exact Hj).
  all: unfold cursor_ok; rewrite poll_dmesg_cursor, poll_dmesg_backend;
    rewrite Hb1 by (rewrite ?Hb; discriminate);
    split; [left; reflexivity | reflexivity].
Qed.

(** X8. On every feed reached from the constructor the cursor is either
    absent or a non-empty token, and it is absent whenever the journal is
    not the selected backend. *)
Theorem cursor_only_with_journal
  (lim : Z) (wj wd : option string) (runs : list World) :
  let s := feed_after runs (__init__ lim wj wd) in
  (forall c : string, _cursor s = Some c -> c <> "") /\
  (_backend s <> Some journal -> _cursor s = None).
Proof.
  intros s.
  assert (Hok : cursor_ok s).
  { subst s.
    assert (Hgen : forall s0, cursor_ok s0 -> cursor_ok (feed_after runs s0)).
    { induction runs as [| run runs IH]; intros s0 H0; [exact H0 |].
      cbn [feed_after]. apply IH, poll_cursor_ok, H0. }
    apply Hgen. split; [left; reflexivity | reflexivity]. }
  destruct Hok as [Hshape Hnone]. split; [| exact Hnone].
  intros c Hc Hempty. subst c. rewrite Hc in Hshape.
  destruct Hshape as [H | H]; discriminate H.
Qed.

(** X9. The capacity and the two tool paths are fixed when the feed is
    built: no poll changes them, so a tool missing at construction is
    never looked up again. *)
Theorem tools_fixed_at_construction
  (lim : Z) (wj wd : option string) (runs : list World) :
  let s := feed_after runs (__init__ lim wj wd) in
  limit s = Z.to_nat (Z.max 1 lim) /\ 1 <= limit s /\
  _journalctl s = wj /\ _dmesg s = wd.
Proof.
  intros s.
  destruct (feed_after_config runs (__init__ lim wj wd)) as (Hl & Hj & Hd).
  fold s in Hl, Hj, Hd. rewrite Hl, Hj, Hd.
  cbn [__init__ limit _journalctl _dmesg]. repeat split. lia.
Qed.

(** ** Parsing the tool output *)

Section ParseFacts.

Lemma scan_skips_plain (l r : list string) :
  Forall (fun ln => PyStr.startswith ln cursor_prefix = false) l ->
  extract_cursor_scan (l ++ r) = extract_cursor_scan r.
Proof.
  induction 1 as [| ln l Hln _ IH]; [reflexivity |].
  cbn [app extract_cursor_scan]. rewrite Hln. exact IH.
Qed.

Lemma scan_never_empty (l : list string) (c : string) :
  extract_cursor_scan l = Some c -> c <> "".
Proof.
  induction l as [| ln l IH]; cbn [extract_cursor_scan]; [discriminate |].
  destruct (PyStr.startswith ln cursor_prefix); [| exact IH].
  destruct (nth_error (PyStr.split1 ":" ln) 1) as [after |];
    [| discriminate].
  destruct (PyStr.strip after) eqn:Hs; cbn [PyStr.is_empty];
    [discriminate |].
  intros H. inversion H. discriminate.
Qed.

Lemma rstrip_idem (s : string) : PyStr.rstrip (PyStr.rstrip s) = PyStr.rstrip s.
Proof.
  induction s as [| c s IH]; [reflexivity |].
  cbn [PyStr.rstrip].
  destruct (PyStr.is_empty (PyStr.rstrip s) && PyStr.isspace c) eqn:Hc;
    [reflexivity |].
  cbn [PyStr.rstrip]. rewrite IH, Hc. reflexivity.
Qed.

Lemma rstrip_lstrip_empty (s : string) :
  PyStr.rstrip (PyStr.lstrip s) = "" -> PyStr.rstrip s = "".
Proof.
  induction s as [| c s IH]; [reflexivity |].
  cbn [PyStr.lstrip]. destruct (PyStr.isspace c) eqn:Hc.
  - intros H. cbn [PyStr.rstrip]. rewrite (IH H), Hc. reflexivity.
  - intros H. exact H.
Qed.

Lemma no_linebreak_app (a b : string) :
  PyStr.no_linebreak (a ++ b) =
  PyStr.no_linebreak a && PyStr.no_linebreak b.
Proof.
  induction a as [| c a IH]; [reflexivity |].
  cbn [String.append PyStr.no_linebreak]. rewrite IH.
  apply andb_assoc.
Qed.

Lemma no_linebreak_rstrip (s : string) :
  PyStr.no_linebreak s = true -> PyStr.no_linebreak (PyStr.rstrip s) = true.
Proof.
  induction s as [| c s IH]; [reflexivity |].
  cbn [PyStr.no_linebreak PyStr.rstrip]. intros H.
  apply andb_true_iff in H. destruct H as [Hc Hs].
  destruct (PyStr.is_empty (PyStr.rstrip s) && PyStr.isspace c);
    [reflexivity |].
  cbn [PyStr.no_linebreak]. rewrite Hc, (IH Hs). reflexivity.
Qed.

Lemma splitlines_from_no_linebreak_upto (n : nat) :
  forall s cur : string,
    String.length s <= n ->
    PyStr.no_linebreak cur = true ->
    Forall (fun l => PyStr.no_linebreak l = true)
           (PyStr.splitlines_from cur s).
Proof.
  induction n as [| n IH]; intros s cur Hlen Hcur.
  - destruct s; [| cbn in Hlen; lia].
    cbn [PyStr.splitlines_from].
    destruct (PyStr.is_empty cur); repeat constructor. exact Hcur.
  - destruct s as [| c s].
    + cbn [PyStr.splitlines_from].
      destruct (PyStr.is_empty cur); repeat constructor. exact Hcur.
    + cbn [String.length] in Hlen. cbn [PyStr.splitlines_from].
      destruct (PyStr.is_linebreak c) eqn:Hc.
      * constructor; [exact Hcur |].
        destruct s as [| c2 s']; [apply IH; [cbn; lia | reflexivity] |].
        cbn [String.length] in Hlen.
        destruct (Ascii.eqb c PyStr.CR && Ascii.eqb c2 PyStr.LF);
          apply IH; try reflexivity; cbn [String.length]; lia.
      * apply IH; [lia |]. rewrite no_linebreak_app.
        cbn [PyStr.no_linebreak]. rewrite Hcur, Hc. reflexivity.
Qed.

Lemma splitlines_no_linebreak (s : string) :
  Forall (fun l => PyStr.no_linebreak l = true) (PyStr.splitlines s).
Proof.
  apply (splitlines_from_no_linebreak_upto (String.length s));
    [lia | reflexivity].
Qed.

Lemma filter_rstrip_fixed (ls rest : list string) :
  Forall (fun l => PyStr.rstrip l = l /\ l <> "" /\ l <> no_entries /\
                   PyStr.startswith l cursor_prefix = false) ls ->
  _filter_journal_lines (ls ++ rest) = ls ++ _filter_journal_lines rest.
Proof.
  induction 1 as [| l ls (Hr & He & Hn & Hp) _ IH]; [reflexivity |].
  cbn [app _filter_journal_lines]. rewrite Hr, Hp, IH.
  destruct l as [| c l]; [congruence |]. cbn [PyStr.is_empty].
  destruct (String.eqb_spec (String c l) no_entries); [congruence |].
  reflexivity.
Qed.

Lemma filter_output_fixed (raw : list string) :
  Forall (fun l => PyStr.rstrip l = l /\ l <> "" /\ l <> no_entries /\
                   PyStr.startswith l cursor_prefix = false)
         (_filter_journal_lines raw).
Proof.
  induction raw as [| ln raw IH]; [constructor |].
  cbn [_filter_journal_lines].
  destruct (PyStr.is_empty (PyStr.rstrip ln)) eqn:He; [exact IH |].
  destruct (String.eqb_spec (PyStr.rstrip ln) no_entries) as [| Hn];
    [exact IH |].
  destruct (PyStr.startswith (PyStr.rstrip ln) cursor_prefix) eqn:Hp;
    [exact IH |].
  constructor; [| exact IH].
  split; [apply rstrip_idem |]. repeat split; try assumption.
  intros Heq. rewrite Heq in He. discriminate He.
Qed.

Lemma filter_length (raw : list string) :
  List.length (_filter_journal_lines raw) <= List.length raw.
Proof.
  induction raw as [| ln raw IH]; [cbn; lia |].
  cbn [_filter_journal_lines].
  repeat break_match; cbn [List.length]; lia.
Qed.

End ParseFacts.

(** X10. Among the raw lines the last cursor trailer decides the cursor:
    it is the text after [-- cursor:] with surrounding blanks removed, or
    no cursor at all when that text is blank, even if an earlier trailer
    carried a token.  A cursor, when one is found, is never the empty
    string. *)
Theorem extract_cursor_last_trailer
  (pre post : list string) (rest : string) :
  Forall (fun ln => PyStr.startswith ln cursor_prefix = false) post ->
  _extract_cursor (pre ++ (cursor_prefix ++ rest)%string :: post)
  = (if PyStr.is_empty (PyStr.strip rest) then None
     else Some (PyStr.strip rest))
  /\
  (forall (raw : list string) (c : string),
      _extract_cursor raw = Some c -> c <> "").
Proof.
  intros Hpost. split.
  - unfold _extract_cursor. rewrite rev_app_distr. cbn [rev].
    rewrite <- app_assoc.
    rewrite scan_skips_plain by (apply Forall_rev, Hpost).
    cbn [app extract_cursor_scan].
    assert (Hpre : PyStr.startswith (cursor_prefix ++ rest) cursor_prefix
                   = true) by (destruct rest; reflexivity).
    rewrite Hpre.
    change (nth_error (PyStr.split1 ":" (cursor_prefix ++ rest)) 1)
      with (Some rest).
    reflexivity.
  - intros raw c. apply scan_never_empty.
Qed.

Lemma extract_cursor_last_trailer_witness :
  _extract_cursor ["k1"; "-- cursor: OLD"; "k2"; "-- cursor:   "; "k3"]
  = None /\
  _extract_cursor ["-- cursor: OLD"; "k2"; "-- cursor:  NEW  "; "k3"]
  = Some "NEW".
Proof.
  assert (Hpost : Forall (fun ln => PyStr.startswith ln cursor_prefix = false)
                         ["k3"]) by (repeat constructor).
  split.
  - exact (proj1 (extract_cursor_last_trailer
                    ["k1"; "-- cursor: OLD"; "k2"] ["k3"] "   " Hpost)).
  - exact (proj1 (extract_cursor_last_trailer
                    ["-- cursor: OLD"; "k2"] ["k3"] "  NEW  " Hpost)).
Defined.

(** X11. Filtering journal lines is idempotent and never adds lines: every
    line it returns is free of trailing blanks, not empty, not the
    [-- No entries --] sentinel and not a cursor trailer, so a second pass
    changes nothing. *)
Theorem filter_journal_lines_idempotent (raw : list string) :
  _filter_journal_lines (_filter_journal_lines raw)
  = _filter_journal_lines raw /\
  List.length (_filter_journal_lines raw) <= List.length raw /\
  Forall (fun l => PyStr.rstrip l = l /\ kept_line l)
         (_filter_journal_lines raw).
Proof.
  split; [| split].
  - rewrite <- (app_nil_r (_filter_journal_lines raw)) at 1.
    rewrite (filter_rstrip_fixed _ [] (filter_output_fixed raw)).
    apply app_nil_r.
  - apply filter_length.
  - eapply Forall_impl; [| apply filter_output_fixed].
    intros l (Hr & He & Hn & Hp). repeat split; assumption.
Qed.

Lemma dmesg_lines_window (text : string) :
  Forall window_line (dmesg_lines text).
Proof.
  unfold dmesg_lines. apply Forall_map, Forall_forall.
  intros ln Hin. apply filter_In in Hin. destruct Hin as [Hin Hne].
  pose proof (splitlines_no_linebreak text) as Hnl.
  rewrite Forall_forall in Hnl. specialize (Hnl ln Hin).
  repeat split.
  - intros Hr. unfold PyStr.strip in Hne.
    rewrite (rstrip_empty_lstrip ln Hr) in Hne. discriminate Hne.
  - apply rstrip_idem.
  - apply no_linebreak_rstrip, Hnl.
Qed.

(** X12. The dmesg window holds only lines that are not empty, carry no
    trailing blanks and no line break; and a window of such lines, printed
    one per line, is read back unchanged. *)
Theorem dmesg_lines_round_trip (text : string) :
  Forall window_line (dmesg_lines text) /\
  (forall W : list string,
      Forall window_line W -> dmesg_lines (PyStr.unlines W) = W).
Proof.
  split.
  - apply dmesg_lines_window.
  - intros W HW. unfold dmesg_lines.
    rewrite splitlines_unlines
      by (eapply Forall_impl; [| exact HW]; intros l (_ & _ & H); exact H).
    induction HW as [| l W (Hne & Hr & _) _ IH]; [reflexivity |].
    cbn [filter map].
    assert (Hs : PyStr.is_empty (PyStr.strip l) = false).
    { unfold PyStr.strip.
      destruct (PyStr.rstrip (PyStr.lstrip l)) eqn:Hst; [| reflexivity].
      exfalso. apply Hne. rewrite <- Hr.
      apply rstrip_lstrip_empty, Hst. }
    rewrite Hs. cbn [negb map]. rewrite Hr, IH. reflexivity.
Qed.

(** * The one-shot diagnostics call *)

(** X13. [get_recent_diagnostics] returns exactly the lines of the first
    poll of a new feed, which are that feed's snapshot: the final cut to
    [max(1, limit)] lines never removes anything. *)
Theorem recent_diagnostics_is_first_poll
  (run : World) (wj wd : option string) (lim : Z) :
  let o := poll run (__init__ lim wj wd) in
  get_recent_diagnostics run wj wd lim = lines o /\
  get_recent_diagnostics run wj wd lim = snapshot (feed o) /\
  List.length (get_recent_diagnostics run wj wd lim)
  <= Z.to_nat (Z.max 1 lim).
Proof.
  intros o. unfold get_recent_diagnostics. fold o.
  assert (Hlines : lines o = snapshot (feed o)).
  { apply (reset_lines_are_snapshot [] lim wj wd run).
    apply first_poll_reset. }
  assert (Hlen : List.length (lines o) <= Z.to_nat (Z.max 1 lim))
    by (rewrite Hlines; apply first_poll_length).
  rewrite (last_n_all _ _ Hlen).
  split; [reflexivity |]. split; [exact Hlines | exact Hlen].
Qed.

(** X14. The diagnostics route returns at most 2000 lines, and at most
    [max(1, limit)] lines for the [limit] of the query, whatever the tools
    print. *)
Theorem api_diagnostics_bounded
  (run : World) (wj wd : option string) (lim : Z) :
  List.length (api_diagnostics run wj wd lim) <= 2000 /\
  List.length (api_diagnostics run wj wd lim) <= Z.to_nat (Z.max 1 lim).
Proof.
  unfold api_diagnostics, get_recent_diagnostics.
  set (o := poll run (__init__ (Z.min (Z.max lim 1) 2000) wj wd)).
  assert (Hlines : lines o = snapshot (feed o)).
  { apply (reset_lines_are_snapshot [] _ wj wd run).
    apply first_poll_reset. }
  assert (Hlen : List.length (lines o)
                 <= Z.to_nat (Z.max 1 (Z.min (Z.max lim 1) 2000)))
    by (rewrite Hlines; apply first_poll_length).
  rewrite (last_n_all _ _ Hlen). split; lia.
Qed.

(** X15. The stateless [get_recent_diagnostics] returns at most
    [max(1, limit)] lines, none of them empty or with trailing blanks; it
    takes the journal output whenever the journal command succeeds, turns
    to dmesg only otherwise, and returns nothing when no command
    succeeds. *)
Theorem stateless_recent_diagnostics
  (run : World) (wj wd : option string) (lim : Z) :
  let L := Z.to_nat (Z.max 1 lim) in
  let r := Stateless.get_recent_diagnostics run wj wd lim in
  List.length r <= L /\ Forall window_line r /\
  (forall tool out,
      wj = Some tool -> run (Stateless.journal_argv tool L) = Some out ->
      r = PyList.last_n L (dmesg_lines out)) /\
  ((forall argv, run argv = None) -> r = []).
Proof.
  intros L r.
  assert (HL : 1 <= L) by (subst L; lia).
  assert (Hcut : forall out,
             List.length (PyList.last_n L (dmesg_lines out)) <= L /\
             Forall window_line (PyList.last_n L (dmesg_lines out))).
  { intros out. split; [apply last_n_length; exact HL |].
    apply Forall_last_n, dmesg_lines_window. }
  assert (Hdm : List.length (Stateless.from_dmesg run wd L) <= L /\
                Forall window_line (Stateless.from_dmesg run wd L)).
  { unfold Stateless.from_dmesg. destruct wd as [td |];
      [| split; [cbn; lia | constructor]].
    destruct (fst (first_success run (Stateless.dmesg_candidates td)));
      [apply Hcut | split; [cbn; lia | constructor]]. }
  subst r. unfold Stateless.get_recent_diagnostics. fold L.
  split; [| split; [| split]].
  - destruct wj as [tj |]; [| apply Hdm].
    destruct (run (Stateless.journal_argv tj L)); [apply Hcut | apply Hdm].
  - destruct wj as [tj |]; [| apply Hdm].
    destruct (run (Stateless.journal_argv tj L)); [apply Hcut | apply Hdm].
  - intros tool out Hw Hrun. rewrite Hw, Hrun. reflexivity.
  - intros Hnone.
    assert (Hfd : Stateless.from_dmesg run wd L = []).
    { unfold Stateless.from_dmesg. destruct wd as [td |]; [| reflexivity].
      cbn [Stateless.dmesg_candidates first_success].
      rewrite !Hnone. reflexivity. }
    destruct wj as [tj |]; [rewrite Hnone |]; exact Hfd.
Qed.

(** * Running services *)

Section SplitFacts.

Lemma lstrip_head (s r : string) (c : ascii) :
  PyStr.lstrip s = String c r -> PyStr.isspace c = false.
Proof.
  induction s as [| a s IH]; cbn [PyStr.lstrip]; [discriminate |].
  destruct (PyStr.isspace a) eqn:Ha; [exact IH |].
  intros H. inversion H; subst. exact Ha.
Qed.

Lemma lstrip_fixed (s r : string) (c : ascii) :
  s = String c r -> PyStr.isspace c = false -> PyStr.lstrip s = s.
Proof. intros -> Hc. cbn [PyStr.lstrip]. rewrite Hc. reflexivity. Qed.

Lemma word_no_space (s : string) : PyText.has_space (PyText.word s) = false.
Proof.
  induction s as [| c s IH]; [reflexivity |].
  cbn [PyText.word]. destruct (PyStr.isspace c) eqn:Hc; [reflexivity |].
  cbn [PyText.has_space]. rewrite Hc, IH. reflexivity.
Qed.

Lemma split_ws_items (n : nat) :
  forall s : string,
    List.length (PyText.split_ws n s) <= S n /\
    Forall item (PyText.split_ws n s) /\
    Forall (fun w => PyText.has_space w = false)
           (firstn n (PyText.split_ws n s)).
Proof.
  induction n as [| n IH]; intros s; cbn [PyText.split_ws].
  - destruct (PyStr.lstrip s) as [| c r] eqn:Hl; cbn [PyStr.is_empty].
    + repeat split; [cbn; lia | constructor | constructor].
    + repeat split; [cbn; lia | | constructor].
      constructor; [| constructor]. split; [discriminate |].
      eapply lstrip_fixed; [reflexivity |]. eapply lstrip_head, Hl.
  - destruct (PyStr.lstrip s) as [| c r] eqn:Hl; cbn [PyStr.is_empty].
    + repeat split; [cbn; lia | constructor | constructor].
    + pose proof (lstrip_head s r c Hl) as Hc.
      destruct (IH (PyText.after_word (String c r))) as (Hlen & Hit & Hsp).
      repeat split.
      * cbn [List.length]. lia.
      * constructor; [| exact Hit]. split.
        -- cbn [PyText.word]. rewrite Hc. discriminate.
        -- cbn [PyText.word]. rewrite Hc. cbn [PyStr.lstrip].
           rewrite Hc. reflexivity.
      * cbn [firstn]. constructor; [apply word_no_space | exact Hsp].
Qed.

End SplitFacts.

Lemma rows_loop_ok (limit : Z) (out_lines : list string) :
  forall rows : list Services.ServiceRow,
    Forall row_ok rows ->
    Forall row_ok (Services.rows_loop limit rows out_lines).
Proof.
  induction out_lines as [| line rest IH]; intros rows Hrows;
    cbn [Services.rows_loop]; [exact Hrows |].
  destruct (PyStr.is_empty line || PyStr.startswith line "UNIT "
            || PyStr.startswith line "LOAD "); [apply IH, Hrows |].
  destruct (split_ws_items 4 line) as (_ & Hit & Hsp).
  destruct (PyText.split_ws 4 line) as [| a [| b [| c [| d [| e [| f l]]]]]];
    try (apply IH, Hrows).
  assert (Hrow : row_ok (Services.mkServiceRow a e c)).
  { cbn [firstn] in Hsp.
    inversion Hit as [| ? ? [Ha _] Hit1]; subst.
    inversion Hit1 as [| ? ? _ Hit2]; subst.
    inversion Hit2 as [| ? ? [Hc _] Hit3]; subst.
    inversion Hit3 as [| ? ? _ Hit4]; subst.
    inversion Hit4 as [| ? ? [He He'] _]; subst.
    inversion Hsp as [| ? ? Hsa Hsp1]; subst.
    inversion Hsp1 as [| ? ? _ Hsp2]; subst.
    inversion Hsp2 as [| ? ? Hsc _]; subst.
    repeat split; assumption. }
  assert (Hrows' : Forall row_ok (rows ++ [Services.mkServiceRow a e c])).
  { apply Forall_app. split; [exact Hrows |].
    constructor; [exact Hrow | constructor]. }
  destruct (limit <=? Z.of_nat _)%Z; [exact Hrows' | apply IH, Hrows'].
Qed.

Lemma rows_loop_length (limit : Z) (out_lines : list string) :
  forall rows : list Services.ServiceRow,
    List.length rows < Z.to_nat (Z.max 1 limit) ->
    List.length (Services.rows_loop limit rows out_lines)
    <= Z.to_nat (Z.max 1 limit).
Proof.
  induction out_lines as [| line rest IH]; intros rows Hrows;
    cbn [Services.rows_loop]; [lia |].
  destruct (PyStr.is_empty line || PyStr.startswith line "UNIT "
            || PyStr.startswith line "LOAD "); [apply IH, Hrows |].
  destruct (PyText.split_ws 4 line) as [| a [| b [| c [| d [| e [| f l]]]]]];
    try (apply IH, Hrows).
  destruct (Z.leb_spec limit
              (Z.of_nat (List.length (rows ++ [Services.mkServiceRow a e c]))))
    as [Hle | Hgt].
  - rewrite length_app. cbn [List.length]. lia.
  - apply IH. rewrite length_app in *. cbn [List.length] in *. lia.
Qed.

(** X16. [get_running_services] returns at most [max(1, limit)] rows (one
    row even for a [limit] of zero or less, the count being tested after
    the row is added), and no row at all when systemctl is missing or its
    command fails. *)
Theorem running_services_bounded
  (run : World) (which_systemctl : option string) (limit : Z) :
  let rows := Services.get_running_services run which_systemctl limit in
  List.length rows <= Z.to_nat (Z.max 1 limit) /\
  (which_systemctl = None -> rows = []) /\
  (forall tool, which_systemctl = Some tool ->
                run (Services.systemctl_argv tool) = None -> rows = []).
Proof.
  intros rows. subst rows. unfold Services.get_running_services.
  split; [| split].
  - destruct which_systemctl as [tool |]; [| cbn; lia].
    destruct (run (Services.systemctl_argv tool)); [| cbn; lia].
    apply rows_loop_length. cbn [List.length]. lia.
  - intros ->. reflexivity.
  - intros tool -> ->. reflexivity.
Qed.

(** X17. Every row of [get_running_services] comes from a line with at
    least five fields: its unit name and its state are non-empty single
    words, and its description is not empty and starts with no blank. *)
Theorem running_services_rows_ok
  (run : World) (which_systemctl : option string) (limit : Z) :
  Forall row_ok (Services.get_running_services run which_systemctl limit).
Proof.
  unfold Services.get_running_services.
  destruct which_systemctl as [tool |]; [| constructor].
  destruct (run (Services.systemctl_argv tool)); [| constructor].
  apply rows_loop_ok. constructor.
Qed.

(** X18. The services route returns at most 200 rows, and at most
    [max(1, limit)] rows for the [limit] of the query. *)
Theorem api_services_bounded
  (run : World) (which_systemctl : option string) (limit : Z) :
  List.length (Services.api_services run which_systemctl limit) <= 200 /\
  List.length (Services.api_services run which_systemctl limit)
  <= Z.to_nat (Z.max 1 limit).
Proof.
  unfold Services.api_services, Services.get_running_services.
  destruct which_systemctl as [tool |]; [| cbn; lia].
  destruct (run (Services.systemctl_argv tool)) as [out |]; [| cbn; lia].
  pose proof (rows_loop_length (Z.min (Z.max limit 1) 200)
                (PyStr.splitlines out) []) as H.
  cbn [List.length] in H. split; lia.
Qed.

(** * Display formats *)

Section UptimeFacts.

Lemma str_length_app (a b : string) :
  String.length (a ++ b) = String.length a + String.length b.
Proof.
  induction a as [| c a IH]; [reflexivity |].
  cbn [String.append String.length]. rewrite IH. reflexivity.
Qed.

Lemma str_app_cancel_head (a1 a2 b1 b2 : string) :
  String.length a1 = String.length a2 ->
  (a1 ++ b1)%string = (a2 ++ b2)%string -> a1 = a2 /\ b1 = b2.
Proof.
  revert a2. induction a1 as [| c a1 IH]; intros [| c2 a2] Hlen Heq;
    try discriminate Hlen.
  - split; [reflexivity | exact Heq].
  - cbn [String.append] in Heq. inversion Heq; subst.
    cbn [String.length] in Hlen.
    destruct (IH a2) as [-> ->]; [lia | assumption | split; reflexivity].
Qed.

Lemma str_app_cancel_tail (a1 a2 b1 b2 : string) :
  String.length b1 = String.length b2 ->
  (a1 ++ b1)%string = (a2 ++ b2)%string -> a1 = a2 /\ b1 = b2.
Proof.
  intros Hlen Heq. apply str_app_cancel_head; [| exact Heq].
  apply (f_equal String.length) in Heq.
  rewrite !str_length_app in Heq. lia.
Qed.

Lemma to_int_ok (z : Z) :
  Z.to_int z <> Decimal.Pos Decimal.Nil /\
  Z.to_int z <> Decimal.Neg Decimal.Nil.
Proof.
  destruct z as [| p | p]; cbn [Z.to_int]; split; try discriminate;
    intros H; inversion H as [Hp];
    exact (DecimalPos.Unsigned.to_uint_nonnil p Hp).
Qed.

Lemma str_of_Z_inj (a b : Z) : str_of_Z a = str_of_Z b -> a = b.
Proof.
  unfold str_of_Z. intros H.
  apply (f_equal NilZero.int_of_string) in H.
  destruct (to_int_ok a) as [Ha1 Ha2]. destruct (to_int_ok b) as [Hb1 Hb2].
  rewrite !NilZero.isi in H by assumption.
  inversion H as [Hint].
  rewrite <- (DecimalZ.of_to a), <- (DecimalZ.of_to b), Hint. reflexivity.
Qed.

(** Two digits always, and the number can be read back. *)
Lemma pad2_two_digits (z : Z) :
  (0 <= z < 100)%Z ->
  String.length (pad2 z) = 2 /\
  option_map Z.of_int (NilZero.int_of_string (pad2 z)) = Some z.
Proof.
  intros Hz.
  assert (Hk : exists k : nat, k < 100 /\ z = Z.of_nat k).
  { exists (Z.to_nat z). split; lia. }
  destruct Hk as (k & Hk & ->). clear Hz.
  do 100 (destruct k as [| k]; [vm_compute; split; reflexivity |]).
  lia.
Qed.

Lemma pad2_inj (a b : Z) :
  (0 <= a < 100)%Z -> (0 <= b < 100)%Z -> pad2 a = pad2 b -> a = b.
Proof.
  intros Ha Hb Heq.
  destruct (pad2_two_digits a Ha) as [_ Hra].
  destruct (pad2_two_digits b Hb) as [_ Hrb].
  rewrite Heq in Hra. congruence.
Qed.

Lemma clock_length (t : Z) : String.length (clock t) = 8.
Proof.
  unfold clock. rewrite !str_length_app.
  destruct (pad2_two_digits (t / 3600 mod 24)) as [-> _];
    [pose proof (Z.mod_pos_bound (t / 3600) 24); lia |].
  destruct (pad2_two_digits (t / 60 mod 60)) as [-> _];
    [pose proof (Z.mod_pos_bound (t / 60) 60); lia |].
  destruct (pad2_two_digits (t mod 60)) as [-> _];
    [pose proof (Z.mod_pos_bound t 60); lia |].
  reflexivity.
Qed.

Lemma clock_inj (a b : Z) :
  clock a = clock b ->
  (a / 3600 mod 24 = b / 3600 mod 24 /\ a / 60 mod 60 = b / 60 mod 60 /\
   a mod 60 = b mod 60)%Z.
Proof.
  unfold clock. intros H.
  assert (Hh : forall t, (0 <= t / 3600 mod 24 < 100)%Z)
    by (intros t; pose proof (Z.mod_pos_bound (t / 3600) 24); lia).
  assert (Hm : forall t, (0 <= t / 60 mod 60 < 100)%Z)
    by (intros t; pose proof (Z.mod_pos_bound (t / 60) 60); lia).
  assert (Hs : forall t, (0 <= t mod 60 < 100)%Z)
    by (intros t; pose proof (Z.mod_pos_bound t 60); lia).
  apply str_app_cancel_head in H;
    [| destruct (pad2_two_digits _ (Hh a)) as [-> _];
       destruct (pad2_two_digits _ (Hh b)) as [-> _]; reflexivity].
  destruct H as [H1 H]. cbn [String.append] in H. inversion H as [H'].
  apply str_app_cancel_head in H';
    [| destruct (pad2_two_digits _ (Hm a)) as [-> _];
       destruct (pad2_two_digits _ (Hm b)) as [-> _]; reflexivity].
  destruct H' as [H2 H']. cbn [String.append] in H'. inversion H' as [H3].
  repeat split; apply pad2_inj; auto.
Qed.

Lemma format_uptime_eq (n : Z) :
  let t := Z.max 0 n in
  format_uptime n =
  if (t <? 86400)%Z then clock t
  else (str_of_Z (t / 86400) ++ "d " ++ clock t)%string.
Proof.
  intros t. unfold format_uptime, clock. fold t.
  assert (Ht : (0 <= t)%Z) by (subst t; lia).
  assert (Hd : (t / 60 / 60 / 24 = t / 86400)%Z).
  { rewrite !Z.div_div by lia. reflexivity. }
  assert (Hh : (t / 60 / 60 = t / 3600)%Z).
  { rewrite Z.div_div by lia. reflexivity. }
  rewrite Hd, Hh.
  destruct (Z.ltb_spec t 86400) as [Hlt | Hge].
  - rewrite Z.div_small by lia. reflexivity.
  - assert (Hpos : (0 < t / 86400)%Z) by (apply Z.div_str_pos; lia).
    destruct (Z.eqb_spec (t / 86400) 0); [lia | reflexivity].
Qed.

End UptimeFacts.

(** X19. [format_uptime] shows [HH:MM:SS], always eight characters, for
    less than a day, with the hours, minutes and seconds of the total;
    from one day on the count of days and ["d "] come first.  A negative
    argument is shown as zero. *)
Theorem format_uptime_shape (n : Z) :
  let t := Z.max 0 n in
  let hms := (pad2 (t / 3600 mod 24) ++ ":" ++ pad2 (t / 60 mod 60) ++ ":"
              ++ pad2 (t mod 60))%string in
  String.length hms = 8 /\
  format_uptime n =
  (if (t <? 86400)%Z then hms
   else (str_of_Z (t / 86400) ++ "d " ++ hms)%string) /\
  ((n <= 0)%Z -> format_uptime n = "00:00:00").
Proof.
  intros t hms. split; [apply (clock_length t) |].
  split; [apply format_uptime_eq |].
  intros Hn. rewrite format_uptime_eq.
  replace (Z.max 0 n) with 0%Z by lia. reflexivity.
Qed.

(** X20. Two different non-negative totals of seconds are never shown the
    same way. *)
Theorem format_uptime_injective (a b : Z) :
  (0 <= a)%Z -> (0 <= b)%Z ->
  format_uptime a = format_uptime b -> a = b.
Proof.
  intros Ha Hb. rewrite !format_uptime_eq. cbv zeta.
  replace (Z.max 0 a) with a by lia. replace (Z.max 0 b) with b by lia.
  assert (Hrebuild : forall x y : Z,
             (0 <= x)%Z -> (0 <= y)%Z ->
             (x / 86400 = y / 86400)%Z -> clock x = clock y -> x = y).
  { intros x y Hx Hy Hd Hc. apply clock_inj in Hc.
    destruct Hc as (Hh & Hm & Hs).
    revert Hd Hh Hm Hs. Z.div_mod_to_equations. lia. }
  destruct (Z.ltb_spec a 86400) as [Hla | Hga];
    destruct (Z.ltb_spec b 86400) as [Hlb | Hgb]; intros Heq.
  - apply Hrebuild; try assumption.
    rewrite !Z.div_small by lia. reflexivity.
  - exfalso. apply (f_equal String.length) in Heq.
    rewrite !str_length_app, !clock_length in Heq.
    cbn [String.length] in Heq. lia.
  - exfalso. apply (f_equal String.length) in Heq.
    rewrite !str_length_app, !clock_length in Heq.
    cbn [String.length] in Heq. lia.
  - apply str_app_cancel_head in Heq.
    + destruct Heq as [Hd Heq]. apply str_of_Z_inj in Hd.
      cbn [String.append] in Heq. inversion Heq as [Hc].
      apply Hrebuild; assumption.
    + apply (f_equal String.length) in Heq.
      rewrite !str_length_app, !clock_length in Heq.
      cbn [String.length] in Heq. lia.
Qed.

Lemma format_uptime_injective_witness :
  (0 <= 86399)%Z /\ (0 <= 86400)%Z /\
  format_uptime 86399 = "23:59:59" /\ format_uptime 86400 = "1d 00:00:00" /\
  (format_uptime 86399 = format_uptime 86400 -> 86399 = 86400)%Z.
Proof.
  assert (Ha : (0 <= 86399)%Z) by lia.
  assert (Hb : (0 <= 86400)%Z) by lia.
  split; [exact Ha |]. split; [exact Hb |].
  split; [reflexivity |]. split; [reflexivity |].
  exact (format_uptime_injective 86399 86400 Ha Hb).
Defined.

Lemma round_half_even_close (num den : Z) :
  (0 < den)%Z ->
  (2 * Z.abs (round_half_even num den * den - num) <= den)%Z.
Proof.
  intros Hden. unfold round_half_even.
  pose proof (Z.div_mod num den ltac:(lia)) as Hdm.
  pose proof (Z.mod_pos_bound num den Hden) as Hr.
  set (q := (num / den)%Z) in *. set (r := (num mod den)%Z) in *.
  assert (Hq : (q * den - num = - r)%Z) by lia.
  assert (Hq1 : ((q + 1) * den - num = den - r)%Z) by lia.
  destruct (Z.ltb_spec (2 * r) den);
    [rewrite Hq; lia |].
  destruct (Z.ltb_spec den (2 * r));
    [rewrite Hq1; lia |].
  destruct (Z.even q); [rewrite Hq | rewrite Hq1]; lia.
Qed.

(** X21. [format_bytes] shows a negative count as ["0B"] and a count below
    1024 as that very number followed by ["B"]. *)
Theorem format_bytes_small (n : Z) :
  ((n < 0)%Z -> format_bytes n = "0B") /\
  ((0 <= n < 1024)%Z -> format_bytes n = (str_of_Z n ++ "B")%string).
Proof.
  unfold format_bytes. split; intros Hn.
  - destruct (Z.ltb_spec n 0); [reflexivity | lia].
  - destruct (Z.ltb_spec n 0); [lia |].
    cbn [scale]. change (1024 ^ Z.of_nat 1)%Z with 1024%Z.
    destruct (Z.leb_spec 1024 n); [lia | reflexivity].
Qed.

(** X22. From 1024 bytes on (and up to [2 ^ 53], where the float of the
    source is exact), [format_bytes] picks the largest unit [1024 ^ i]
    not above [n], PB at most, and prints [n / 1024 ^ i] with one decimal:
    the printed tenths [t] are a nearest integer to [10 * n / 1024 ^ i],
    so the display is within 0.05 of the true value. *)
Theorem format_bytes_scaled (n : Z) :
  (1024 <= n)%Z -> (n <= 2 ^ 53)%Z ->
  exists (i : nat) (t : Z),
    1 <= i <= 5 /\
    (1024 ^ Z.of_nat i <= n)%Z /\
    (i < 5 -> (n < 1024 ^ Z.of_nat (S i))%Z) /\
    (2 * Z.abs (t * 1024 ^ Z.of_nat i - 10 * n) <= 1024 ^ Z.of_nat i)%Z /\
    format_bytes n =
    (str_of_Z (t / 10) ++ "." ++ str_of_Z (t mod 10)
     ++ nth i units "")%string.
Proof.
  intros Hlo Hhi. unfold format_bytes.
  destruct (Z.ltb_spec n 0); [lia |].
  assert (Hscale : exists i, scale 5 n 0 = i /\ 1 <= i <= 5 /\
                     (1024 ^ Z.of_nat i <= n)%Z /\
                     (i < 5 -> (n < 1024 ^ Z.of_nat (S i))%Z)).
  { cbn [scale].
    destruct (Z.leb_spec (1024 ^ Z.of_nat 1) n) as [H1 | H1];
      [| change (1024 ^ Z.of_nat 1)%Z with 1024%Z in H1; lia].
    destruct (Z.leb_spec (1024 ^ Z.of_nat 2) n) as [H2 | H2];
      [| exists 1; repeat split; try lia; intros _; exact H2].
    destruct (Z.leb_spec (1024 ^ Z.of_nat 3) n) as [H3 | H3];
      [| exists 2; repeat split; try lia; intros _; exact H3].
    destruct (Z.leb_spec (1024 ^ Z.of_nat 4) n) as [H4 | H4];
      [| exists 3; repeat split; try lia; intros _; exact H4].
    destruct (Z.leb_spec (1024 ^ Z.of_nat 5) n) as [H5 | H5];
      [| exists 4; repeat split; try lia; intros _; exact H5].
    exists 5. repeat split; try lia. }
  destruct Hscale as (i & Hi & Hrange & Hle & Hlt). rewrite Hi.
  destruct (Nat.eqb_spec i 0); [lia |].
  exists i, (round_half_even (10 * n) (1024 ^ Z.of_nat i)).
  repeat split; try assumption; try lia.
  apply round_half_even_close. apply Z.pow_pos_nonneg; lia.
Qed.

Lemma format_bytes_scaled_witness :
  (1024 <= 1792)%Z /\ (1792 <= 2 ^ 53)%Z /\
  format_bytes 1792 = "1.8KB" /\
  exists (i : nat) (t : Z),
    1 <= i <= 5 /\
    (1024 ^ Z.of_nat i <= 1792)%Z /\
    (i < 5 -> (1792 < 1024 ^ Z.of_nat (S i))%Z) /\
    (2 * Z.abs (t * 1024 ^ Z.of_nat i - 10 * 1792) <= 1024 ^ Z.of_nat i)%Z /\
    format_bytes 1792 =
    (str_of_Z (t / 10) ++ "." ++ str_of_Z (t mod 10)
     ++ nth i units "")%string.
Proof.
  assert (Hlo : (1024 <= 1792)%Z) by lia.
  assert (Hhi : (1792 <= 2 ^ 53)%Z) by (vm_compute; discriminate).
  split; [exact Hlo |]. split; [exact Hhi |]. split; [reflexivity |].
  exact (format_bytes_scaled 1792 Hlo Hhi).
Defined.

(** * The command runner route *)

Lemma strip_idem (s : string) : PyStr.strip (PyStr.strip s) = PyStr.strip s.
Proof.
  unfold PyStr.strip.
  destruct (PyStr.lstrip s) as [| c r] eqn:Hl; [reflexivity |].
  pose proof (lstrip_head s r c Hl) as Hc.
  assert (Hr : PyStr.rstrip (String c r) = String c (PyStr.rstrip r)).
  { cbn [PyStr.rstrip]. rewrite Hc, andb_false_r. reflexivity. }
  rewrite Hr. cbn [PyStr.lstrip]. rewrite Hc. rewrite <- Hr.
  apply rstrip_idem.
Qed.

(** X23. The run route hands a command to the shell only when
    [DIAGTERM_WEB_ENABLE_RUNNER] is exactly ["1"] and the command is not
    blank; the command run is the request's command without surrounding
    blanks, and a timeout that is zero or negative is replaced by the
    default.  With any other setting the answer is 403, whatever the
    command. *)
Theorem api_run_gate
  (Timeout : Type) (le_zero : Timeout -> bool) (default_timeout : Timeout)
  (enable_runner : option string) (req_cmd : string) (req_timeout : Timeout) :
  let r := api_run Timeout le_zero default_timeout
                   enable_runner req_cmd req_timeout in
  (forall cmd t,
      r = RunShell cmd t ->
      enable_runner = Some "1" /\
      cmd = PyStr.strip req_cmd /\ cmd <> "" /\ PyStr.strip cmd = cmd /\
      t = (if le_zero req_timeout then default_timeout else req_timeout)) /\
  (enable_runner <> Some "1" -> exists detail, r = HTTPError 403 detail) /\
  (enable_runner = Some "1" -> PyStr.strip req_cmd = "" ->
   r = HTTPError 400 "cmd is required").
Proof.
  intros r. subst r. unfold api_run.
  destruct enable_runner as [v |].
  - destruct (String.eqb_spec v "1") as [-> | Hv]; cbn [negb].
    + split; [| split].
      * intros cmd t.
        destruct (PyStr.strip req_cmd) as [| c s] eqn:Hs;
          cbn [PyStr.is_empty]; [discriminate |].
        intros H. inversion H; subst.
        repeat split; [discriminate |].
        rewrite <- Hs. apply strip_idem.
      * intros H. exfalso. apply H. reflexivity.
      * intros _ ->. reflexivity.
    + split; [| split].
      * intros cmd t H. discriminate H.
      * intros _. eexists. reflexivity.
      * intros H. inversion H. congruence.
  - cbn [String.eqb negb]. split; [| split].
    + intros cmd t H. discriminate H.
    + intros _. eexists. reflexivity.
    + intros H. discriminate H.
Qed.
